(** * exchangelib: the Account facade (account.py)

    A shallow embedding of [exchangelib/account.py]: account construction,
    the lazily cached folder directory and default folders, the
    default-folder resolver with its fallbacks, and the item pass-throughs
    (export, upload, bulk_update, bulk_delete).

    Python objects that live for the duration of a call are values; the
    attributes that the code sets on [self] are the fields of [Account];
    everything the module calls but does not define (the service layer,
    the folder classes, autodiscovery, builtins of [str]) is a field of
    [Env], an oracle over an abstract server state [World].  Every oracle
    call is recorded in a call log, so that "no remote call" and "called
    in this order" are statements about that log.  *)

From Stdlib Require Import Ascii String.
From stdpp Require Import base decidable countable strings list gmap fin_maps.

Local Open Scope string_scope.
Local Open Scope list_scope.

(** ** Data model *)

(** The folder classes imported by account.py (lines 6-7).
    Modelled from the spec: folders.py is not part of the sources; the class
    that folders.py gives to a folder matching none of the named types is the
    tag [Other] of the well-known-type enumeration (spec section 3). *)
Inductive FolderClass : Type :=
  | Root | Calendar | DeletedItems | Drafts | Inbox | Outbox | SentItems
  | JunkEmail | Tasks | Contacts | RecoverableItemsRoot
  | RecoverableItemsDeletions | Other.

#[global] Instance FolderClass_eq_dec : EqDecision FolderClass.
Proof. solve_decision. Defined.

Definition FolderClass_to_nat (c : FolderClass) : nat :=
  match c with
  | Root => 0 | Calendar => 1 | DeletedItems => 2 | Drafts => 3 | Inbox => 4
  | Outbox => 5 | SentItems => 6 | JunkEmail => 7 | Tasks => 8 | Contacts => 9
  | RecoverableItemsRoot => 10 | RecoverableItemsDeletions => 11 | Other => 12
  end.

Definition FolderClass_of_nat (n : nat) : option FolderClass :=
  match n with
  | 0 => Some Root | 1 => Some Calendar | 2 => Some DeletedItems
  | 3 => Some Drafts | 4 => Some Inbox | 5 => Some Outbox
  | 6 => Some SentItems | 7 => Some JunkEmail | 8 => Some Tasks
  | 9 => Some Contacts | 10 => Some RecoverableItemsRoot
  | 11 => Some RecoverableItemsDeletions | 12 => Some Other
  | _ => None
  end.

#[global] Instance FolderClass_countable : Countable FolderClass.
Proof.
  apply (inj_countable FolderClass_to_nat FolderClass_of_nat).
  intros c. destruct c; reflexivity.
Defined.

(** [fld_class.__name__] *)
Definition class_name (c : FolderClass) : string :=
  match c with
  | Root => "Root" | Calendar => "Calendar" | DeletedItems => "DeletedItems"
  | Drafts => "Drafts" | Inbox => "Inbox" | Outbox => "Outbox"
  | SentItems => "SentItems" | JunkEmail => "JunkEmail" | Tasks => "Tasks"
  | Contacts => "Contacts" | RecoverableItemsRoot => "RecoverableItemsRoot"
  | RecoverableItemsDeletions => "RecoverableItemsDeletions"
  | Other => "Folder"
  end.

(** Modelled from the spec: WELLKNOWN_FOLDERS is defined in folders.py, which
    is not part of the sources.  Section 3 of the spec fixes the enumeration
    of well-known types and requires each of them as a key of the folder
    directory; this is [WELLKNOWN_FOLDERS.values()]. *)
Definition WELLKNOWN_FOLDERS_values : list FolderClass :=
  [Root; Calendar; DeletedItems; Drafts; Inbox; Outbox; SentItems; JunkEmail;
   Tasks; Contacts; RecoverableItemsRoot; RecoverableItemsDeletions; Other].

(** A folder object.  [oid] is the identity of the Python object ([id(f)]),
    [cls] is [f.__class__]; the account code reads [name] and
    [is_distinguished]. *)
Record FolderNode : Type := mkFolder {
  oid : nat;
  cls : FolderClass;
  folder_id : string;
  changekey : string;
  name : string;
  is_distinguished : bool
}.

#[global] Instance FolderNode_eq_dec : EqDecision FolderNode.
Proof. solve_decision. Defined.

(** [fld_class(self)] returns an instance of [fld_class], whatever the
    initialiser stores in it. *)
Definition instance_of (c : FolderClass) (f : FolderNode) : FolderNode :=
  {| oid := oid f; cls := c; folder_id := folder_id f; changekey := changekey f;
     name := name f; is_distinguished := is_distinguished f |}.

Inductive Depth : Type := SHALLOW | DEEP.

Record Credentials : Type := mkCredentials { username : string; password : string }.
Record Protocol : Type := mkProtocol { service_endpoint : string; Protocol_version : string }.
Record Configuration : Type := mkConfiguration { Configuration_protocol : Protocol }.
Record ItemId : Type := mkItemId { id : string; item_changekey : string }.

(** The directory [self._folders]: a dict from folder class to the list of
    folders of that class. *)
Abbreviation Directory := (gmap FolderClass (list FolderNode)).

(** The instance attributes of an [Account].  [_folders] is absent until the
    folder directory has been built ([hasattr(self, '_folders')]); [_defaults]
    holds the attributes [_calendar], [_trash], ... that the default-folder
    properties set, keyed by attribute name. *)
Record Account : Type := mkAccount {
  primary_smtp_address : string;
  fullname : option string;
  locale : string;
  access_type : string;
  protocol : Protocol;
  version : string;
  root : FolderNode;
  _folders : option Directory;
  _defaults : gmap string FolderNode
}.

(** ** Exceptions and results *)

(** The exceptions that account.py raises or catches.  [AssertionError]
    carries the message and, for the message built at lines 127-128, the list
    [[str(f) for f in flds]] that is formatted into it.
    [ErrorFolderNotFound] carries its [__cause__] ([raise ... from e]).
    [OtherError] is any other exception of a collaborator. *)
#[warnings="-register-all"]
Inductive Exn : Type :=
  | ValueError (msg : string)
  | AttributeError (msg : string)
  | AssertionError (msg : string) (listed : list string)
  | KeyError (key : FolderClass)
  | IndexError
  | TypeError (msg : string)
  | ErrorAccessDenied (msg : string)
  | ErrorFolderNotFound (msg : string) (cause : option Exn)
  | OtherError (msg : string).

Inductive Result (A : Type) : Type :=
  | Ok (a : A)
  | Raise (e : Exn).
Arguments Ok {A} a.
Arguments Raise {A} e.

(** ** A state and exception monad

    A computation runs on a state and ends with a value or a raised
    exception; in both cases the state changes made so far are kept, as the
    attribute writes of a Python method are when it raises. *)
Definition M (S A : Type) : Type := S -> Result A * S.

Definition ret {S A} (a : A) : M S A := fun s => (Ok a, s).
Definition raise {S A} (e : Exn) : M S A := fun s => (Raise e, s).
Definition bind {S A B} (m : M S A) (k : A -> M S B) : M S B :=
  fun s => match m s with
           | (Ok a, s') => k a s'
           | (Raise e, s') => (Raise e, s')
           end.

Notation "x <- c ;; k" := (bind c (fun x => k))
  (at level 100, c at next level, right associativity).
Notation "c ;;; k" := (bind c (fun _ => k))
  (at level 100, k at level 200, right associativity).

(** [try: m except <classes matched by h>: ...]; [h e = None] when no
    [except] clause matches [e], which then propagates. *)
Definition try_except {S A} (m : M S A) (h : Exn -> option (M S A)) : M S A :=
  fun s => match m s with
           | (Ok a, s') => (Ok a, s')
           | (Raise e, s') =>
               match h e with
               | Some k => k s'
               | None => (Raise e, s')
               end
           end.

(** [assert cond, msg] *)
Definition assert {S} (cond : bool) (msg : string) (listed : list string) : M S unit :=
  if cond then ret tt else raise (AssertionError msg listed).

(** [for x in l: body] *)
Fixpoint for_ {S A} (l : list A) (body : A -> M S unit) : M S unit :=
  match l with
  | [] => ret tt
  | x :: l' => body x ;;; for_ l' body
  end.

(** ** The collaborators *)

(** What [UploadItems.call] receives: the caller's data as it is, or data
    paired with a folder ([None] or a folder object). *)
Inductive UploadArg : Type :=
  | UploadRaw (data : list string)
  | UploadMerged (merged_data : list (option FolderNode * string)).

(** The [folders] argument of [upload]: [None], one folder object (not
    iterable), or an iterable of folders. *)
Inductive FoldersArg : Type :=
  | FoldersNone
  | FoldersOne (f : FolderNode)
  | FoldersMany (fs : list FolderNode).

(** One entry of the call log per call that leaves account.py.
    [EvFolderInit] is the local constructor call [fld_class(self)]; the other
    events are requests to the server. *)
Inductive Event : Type :=
  | EvDiscover (email : string) (credentials : Credentials) (verify_ssl : bool)
  | EvGetDistinguished (c : FolderClass)
  | EvFolderInit (c : FolderClass)
  | EvGetFolders (f : FolderNode) (depth : Depth)
  | EvFilter (f : FolderNode) (subject : string)
  | EvExportItems (ids : list ItemId)
  | EvUploadItems (arg : UploadArg)
  | EvUpdateItem (items : list (ItemId * list string))
  | EvDeleteItem (ids : list ItemId).

(** A listing of child folders, shallow or deep. *)
Definition is_listing (ev : Event) : bool :=
  match ev with
  | EvGetFolders _ _ => true
  | _ => false
  end.

Record Env (World : Type) : Type := mkEnv {
  (* autodiscover.discover *)
  discover : string -> Credentials -> bool -> World -> Result (string * Protocol) * World;
  (* fld_class.get_distinguished(account=self) *)
  get_distinguished : FolderClass -> World -> Result FolderNode * World;
  (* fld_class(self) *)
  folder_init : FolderClass -> World -> Result FolderNode * World;
  (* folder.get_folders(depth=...) *)
  get_folders : FolderNode -> Depth -> World -> Result (list FolderNode) * World;
  (* fld.filter(subject=...) *)
  folder_filter : FolderNode -> string -> World -> Result unit * World;
  (* the services *)
  ExportItems_call : list ItemId -> World -> Result (list string) * World;
  UploadItems_call : UploadArg -> World -> Result (list (string * string)) * World;
  UpdateItem_call : list (ItemId * list string) -> string -> string -> string -> bool ->
                    World -> Result (list string) * World;
  DeleteItem_call : list ItemId -> string -> string -> string -> bool ->
                    World -> Result (list string) * World;
  (* pure parts: str.title, fld_class.LOCALIZED_NAMES, str(folder), Item.id_from_xml *)
  str_title : string -> string;
  LOCALIZED_NAMES : FolderClass -> gmap string (list string);
  folder_str : FolderNode -> string;
  id_from_xml : string -> ItemId;
  (* constants of credentials.py and folders.py *)
  DELEGATE : string;
  IMPERSONATION : string;
  CONFLICT_RESOLUTION_CHOICES : list string;
  MESSAGE_DISPOSITION_CHOICES : list string;
  SEND_MEETING_INVITATIONS_AND_CANCELLATIONS_CHOICES : list string;
  DELETE_TYPE_CHOICES : list string;
  SEND_MEETING_CANCELLATIONS_CHOICES : list string;
  AFFECTED_TASK_OCCURRENCES_CHOICES : list string
}.

Arguments discover {World} _ _ _ _ _.
Arguments get_distinguished {World} _ _ _.
Arguments folder_init {World} _ _ _.
Arguments get_folders {World} _ _ _ _.
Arguments folder_filter {World} _ _ _ _.
Arguments ExportItems_call {World} _ _ _.
Arguments UploadItems_call {World} _ _ _.
Arguments UpdateItem_call {World} _ _ _ _ _ _ _.
Arguments DeleteItem_call {World} _ _ _ _ _ _ _.
Arguments str_title {World} _ _.
Arguments LOCALIZED_NAMES {World} _ _.
Arguments folder_str {World} _ _.
Arguments id_from_xml {World} _ _.
Arguments DELEGATE {World} _.
Arguments IMPERSONATION {World} _.
Arguments CONFLICT_RESOLUTION_CHOICES {World} _.
Arguments MESSAGE_DISPOSITION_CHOICES {World} _.
Arguments SEND_MEETING_INVITATIONS_AND_CANCELLATIONS_CHOICES {World} _.
Arguments DELETE_TYPE_CHOICES {World} _.
Arguments SEND_MEETING_CANCELLATIONS_CHOICES {World} _.
Arguments AFFECTED_TASK_OCCURRENCES_CHOICES {World} _.

(** The server as the account sees it, with the log of the calls made. *)
Record Remote (World : Type) : Type := mkRemote {
  world : World;
  calls : list Event
}.
Arguments mkRemote {World} _ _.
Arguments world {World} _.
Arguments calls {World} _.

(** The state of a method call: the account object and the server. *)
Record St (World : Type) : Type := mkSt {
  self : Account;
  remote : Remote World
}.
Arguments mkSt {World} _ _.
Arguments self {World} _.
Arguments remote {World} _.

(** Calling a collaborator: the call is logged, then answered. *)
Definition call {World A} (ev : Event) (f : World -> Result A * World) : M (Remote World) A :=
  fun r => let (res, w') := f (world r) in
           (res, mkRemote w' (calls r ++ [ev])).

Definition lift {World A} (m : M (Remote World) A) : M (St World) A :=
  fun st => let (res, r') := m (remote st) in (res, mkSt (self st) r').

Definition get_self {World} : M (St World) Account :=
  fun st => (Ok (self st), st).

Definition set_folders (d : Directory) (a : Account) : Account :=
  {| primary_smtp_address := primary_smtp_address a; fullname := fullname a;
     locale := locale a; access_type := access_type a; protocol := protocol a;
     version := version a; root := root a;
     _folders := Some d; _defaults := _defaults a |}.

Definition set_default (attr : string) (f : FolderNode) (a : Account) : Account :=
  {| primary_smtp_address := primary_smtp_address a; fullname := fullname a;
     locale := locale a; access_type := access_type a; protocol := protocol a;
     version := version a; root := root a;
     _folders := _folders a; _defaults := <[attr := f]> (_defaults a) |}.

Definition update_self {World} (f : Account -> Account) : M (St World) unit :=
  fun st => (Ok tt, mkSt (f (self st)) (remote st)).

(** ** Helpers for Python builtins *)

(** [c in s] for a one-character string [c] *)
Fixpoint contains_char (c : ascii) (s : string) : bool :=
  match s with
  | EmptyString => false
  | String c' s' => if Ascii.eqb c c' then true else contains_char c s'
  end.

(** Truth value of an optional string argument: [None] and [''] are false. *)
Definition truthy (s : option string) : bool :=
  match s with
  | None => false
  | Some s' => negb (String.eqb s' "")
  end.

(** Truth value of an optional object argument: only [None] is false. *)
Definition given {A} (o : option A) : bool :=
  match o with
  | None => false
  | Some _ => true
  end.

Definition is_nil {A} (l : list A) : bool :=
  match l with
  | [] => true
  | _ :: _ => false
  end.

(** Modelled from the spec: util.peek is not part of the sources.  Section 4.3
    has bulk update and delete short-circuit on "a provably empty input
    sequence": [peek] returns whether the sequence is empty, and the sequence
    itself, rewound. *)
Definition peek {A} (iterable : list A) : bool * list A :=
  (is_nil iterable, iterable).

(** [d[k]] *)
Definition dict_getitem {S} (d : Directory) (k : FolderClass) : M S (list FolderNode) :=
  match d !! k with
  | Some l => ret l
  | None => raise (KeyError k)
  end.

(** [zip(folders, data)]: a [TypeError] unless [folders] can be iterated;
    the pairs stop with the shorter sequence. *)
Fixpoint zip {A B} (l : list A) (l' : list B) : list (A * B) :=
  match l, l' with
  | x :: t, y :: t' => (x, y) :: zip t t'
  | _, _ => []
  end.

Definition zip_folders (folders : FoldersArg) (data : list string)
  : Result (list (option FolderNode * string)) :=
  match folders with
  | FoldersMany fs => Ok (zip (map Some fs) data)
  | FoldersNone => Raise (TypeError "'NoneType' object is not iterable")
  | FoldersOne _ => Raise (TypeError "'Folder' object is not iterable")
  end.

(** The value of [folders] as the first component of a pair *)
Definition folders_value (folders : FoldersArg) : option FolderNode :=
  match folders with
  | FoldersOne f => Some f
  | _ => None
  end.

Definition TOIS : string := "Top of Information Store".

(** ** The methods of [Account] *)

Section AccountMethods.

Context {World : Type} (env : Env World).

(** [access_type or (DELEGATE if credentials else IMPERSONATION)], line 31 *)
Definition resolve_access_type (access_type : option string)
    (credentials : option Credentials) : string :=
  if truthy access_type then default "" access_type
  else if given credentials then DELEGATE env else IMPERSONATION env.

(** [Account.__init__], lines 23-50.  The final
    [assert isinstance(self.protocol, Protocol)] holds by typing. *)
Definition __init__ (primary_smtp_address : string) (fullname : option string)
    (access_type : option string) (autodiscover : bool)
    (credentials : option Credentials) (config : option Configuration)
    (verify_ssl : bool) (locale : string) : M (Remote World) Account :=
  if negb (contains_char "@"%char primary_smtp_address) then
    raise (ValueError ("primary_smtp_address '" +:+ primary_smtp_address +:+
                       "' is not an email address"))
  else
    let access_type := resolve_access_type access_type credentials in
    assert (bool_decide (access_type ∈ [DELEGATE env; IMPERSONATION env])) "" [] ;;;
    ap <- (if autodiscover then
             match credentials with
             | None => raise (AttributeError "autodiscover requires credentials")
             | Some cr =>
                 ap <- call (EvDiscover primary_smtp_address cr verify_ssl)
                            (discover env primary_smtp_address cr verify_ssl) ;;
                 match config with
                 | Some _ =>
                     raise (AttributeError "config is ignored when autodiscover is active")
                 | None => ret ap
                 end
             end
           else
             match config with
             | None => raise (AttributeError "non-autodiscover requires a config")
             | Some cfg => ret (primary_smtp_address, Configuration_protocol cfg)
             end) ;;
    root <- call (EvGetDistinguished Root) (get_distinguished env Root) ;;
    ret {| primary_smtp_address := fst ap; fullname := fullname; locale := locale;
           access_type := access_type; protocol := snd ap;
           version := Protocol_version (snd ap); root := root;
           _folders := None; _defaults := ∅ |}.

(** [Account.export], lines 52-53 *)
Definition export (ids : list ItemId) : M (St World) (list (ItemId * string)) :=
  exports <- lift (call (EvExportItems ids) (ExportItems_call env ids)) ;;
  ret (zip ids exports).

Definition upload_call (arg : UploadArg) : M (St World) (list (string * string)) :=
  lift (call (EvUploadItems arg) (UploadItems_call env arg)).

(** [Account.upload], lines 55-71.  [zip(folders, data)] is evaluated when
    the generator expression of line 62 is created, so a [folders] that
    cannot be iterated raises there, inside the [try]. *)
Definition upload (data : list string) (folders : FoldersArg)
  : M (St World) (list ItemId) :=
  (match folders with
   | FoldersNone => upload_call (UploadRaw data) ;;; ret tt
   | _ => ret tt
   end) ;;;
  upload_ids <-
    match zip_folders folders data with
    | Raise (TypeError _) =>
        let merged_data := map (fun data_str => (folders_value folders, data_str)) data in
        upload_call (UploadMerged merged_data)
    | Raise e => raise e
    | Ok merged_data => upload_call (UploadMerged merged_data)
    end ;;
  ret (map (fun p => {| id := fst p; item_changekey := snd p |}) upload_ids).

(** Lines 79-88 of the [folders] property: the folders that are classified. *)
Definition working_set : M (St World) (list FolderNode) :=
  a <- get_self ;;
  folders <- lift (call (EvGetFolders (root a) SHALLOW)
                        (get_folders env (root a) SHALLOW)) ;;
  match List.find (fun folder => String.eqb (name folder) TOIS) folders with
  | Some folder =>
      lift (call (EvGetFolders folder SHALLOW) (get_folders env folder SHALLOW))
  | None =>
      lift (call (EvGetFolders (root a) DEEP) (get_folders env (root a) DEEP))
  end.

(** [self._folders] read as an attribute *)
Definition getattr_folders : M (St World) Directory :=
  a <- get_self ;;
  match _folders a with
  | Some d => ret d
  | None => raise (AttributeError "'Account' object has no attribute '_folders'")
  end.

(** [self._folders[f.__class__].append(f)], line 91 *)
Definition append_folder (f : FolderNode) : M (St World) unit :=
  d <- getattr_folders ;;
  l <- dict_getitem d (cls f) ;;
  update_self (set_folders (<[cls f := l ++ [f]]> d)).

(** [dict((m, []) for m in WELLKNOWN_FOLDERS.values())], line 89 *)
Definition empty_directory : Directory :=
  list_to_map (map (fun m => (m, [])) WELLKNOWN_FOLDERS_values).

(** The [folders] property, lines 73-92 *)
Definition folders : M (St World) Directory :=
  a <- get_self ;;
  match _folders a with
  | Some d => ret d
  | None =>
      folders <- working_set ;;
      update_self (set_folders empty_directory) ;;;
      for_ folders append_folder ;;;
      getattr_folders
  end.

(** The test of line 118 *)
Definition has_localized_name (fld_class : FolderClass) (locale : string)
    (folder : FolderNode) : bool :=
  bool_decide (str_title env (name folder)
               ∈ default [] (LOCALIZED_NAMES env fld_class !! locale)).

(** [fld_class(self)] *)
Definition new_folder (fld_class : FolderClass) : M (St World) FolderNode :=
  fld <- lift (call (EvFolderInit fld_class) (folder_init env fld_class)) ;;
  ret (instance_of fld_class fld).

(** [Account._get_default_folder], lines 94-129 *)
Definition _get_default_folder (fld_class : FolderClass) : M (St World) FolderNode :=
  try_except
    (lift (call (EvGetDistinguished fld_class) (get_distinguished env fld_class)))
    (fun e =>
       match e with
       | ErrorAccessDenied _ => Some (
           fld <- new_folder fld_class ;;
           lift (call (EvFilter fld "DUMMY") (folder_filter env fld "DUMMY")) ;;;
           ret fld)
       | ErrorFolderNotFound _ _ => Some (
           d <- folders ;;
           candidates <- dict_getitem d fld_class ;;
           a <- get_self ;;
           let flds := List.filter (has_localized_name fld_class (locale a)) candidates in
           flds <- (if is_nil flds then
                      d <- folders ;;
                      candidates <- dict_getitem d fld_class ;;
                      ret (List.filter is_distinguished candidates)
                    else ret flds) ;;
           if is_nil flds then
             raise (ErrorFolderNotFound
                      ("No useable default " +:+ class_name fld_class +:+ " folders")
                      (Some e))
           else
             assert (Nat.eqb (length flds) 1)
                    ("Multiple possible default " +:+ class_name fld_class +:+ " folders")
                    (map (folder_str env) flds) ;;;
             match flds with
             | fld :: _ => ret fld
             | [] => raise IndexError
             end)
       | _ => None
       end).

(** The pattern of the default-folder properties, lines 131-209: return the
    attribute if it is set, else resolve the folder, set the attribute and
    return it. *)
Definition default_folder_property (attr : string) (fld_class : FolderClass)
  : M (St World) FolderNode :=
  a <- get_self ;;
  match _defaults a !! attr with
  | Some fld => ret fld
  | None =>
      fld <- _get_default_folder fld_class ;;
      update_self (set_default attr fld) ;;;
      ret fld
  end.

Definition calendar := default_folder_property "_calendar" Calendar.
Definition trash := default_folder_property "_trash" DeletedItems.
Definition drafts := default_folder_property "_drafts" Drafts.
Definition inbox := default_folder_property "_inbox" Inbox.
Definition outbox := default_folder_property "_outbox" Outbox.
Definition sent := default_folder_property "_sent" SentItems.
Definition junk := default_folder_property "_junk" JunkEmail.
Definition tasks := default_folder_property "_tasks" Tasks.
Definition contacts := default_folder_property "_contacts" Contacts.
Definition recoverable_items_root :=
  default_folder_property "_recoverable_items_root" RecoverableItemsRoot.
Definition recoverable_deleted_items :=
  default_folder_property "_recoverable_deleted_items" RecoverableItemsDeletions.

(** The default-folder properties with the class each one resolves *)
Definition default_folder_properties : list (FolderClass * M (St World) FolderNode) :=
  [(Calendar, calendar); (DeletedItems, trash); (Drafts, drafts); (Inbox, inbox);
   (Outbox, outbox); (SentItems, sent); (JunkEmail, junk); (Tasks, tasks);
   (Contacts, contacts); (RecoverableItemsRoot, recoverable_items_root);
   (RecoverableItemsDeletions, recoverable_deleted_items)].

(** [Account.bulk_update], lines 215-252 *)
Definition bulk_update (items : list (ItemId * list string))
    (conflict_resolution message_disposition
     send_meeting_invitations_or_cancellations : string)
    (suppress_read_receipts : bool) : M (St World) (list ItemId) :=
  assert (bool_decide (conflict_resolution ∈ CONFLICT_RESOLUTION_CHOICES env)) "" [] ;;;
  assert (bool_decide (message_disposition ∈ MESSAGE_DISPOSITION_CHOICES env)) "" [] ;;;
  assert (bool_decide (send_meeting_invitations_or_cancellations
                       ∈ SEND_MEETING_INVITATIONS_AND_CANCELLATIONS_CHOICES env)) "" [] ;;;
  assert (bool_decide (suppress_read_receipts ∈ [true; false])) "" [] ;;;
  let (is_empty, items) := peek items in
  if is_empty then ret []
  else
    res <- lift (call (EvUpdateItem items)
                      (UpdateItem_call env items conflict_resolution message_disposition
                         send_meeting_invitations_or_cancellations
                         suppress_read_receipts)) ;;
    ret (map (id_from_xml env) res).

(** [Account.bulk_delete], lines 254-285 *)
Definition bulk_delete (ids : list ItemId)
    (delete_type send_meeting_cancellations affected_task_occurrences : string)
    (suppress_read_receipts : bool) : M (St World) (list string) :=
  assert (bool_decide (delete_type ∈ DELETE_TYPE_CHOICES env)) "" [] ;;;
  assert (bool_decide (send_meeting_cancellations
                       ∈ SEND_MEETING_CANCELLATIONS_CHOICES env)) "" [] ;;;
  assert (bool_decide (affected_task_occurrences
                       ∈ AFFECTED_TASK_OCCURRENCES_CHOICES env)) "" [] ;;;
  assert (bool_decide (suppress_read_receipts ∈ [true; false])) "" [] ;;;
  let (is_empty, ids) := peek ids in
  if is_empty then ret []
  else
    lift (call (EvDeleteItem ids)
               (DeleteItem_call env ids delete_type send_meeting_cancellations
                  affected_task_occurrences suppress_read_receipts)).

(** [Account.__str__], lines 287-291 *)
Definition __str__ (a : Account) : string :=
  if truthy (fullname a)
  then primary_smtp_address a +:+ " (" +:+ default "" (fullname a) +:+ ")"
  else primary_smtp_address a.

End AccountMethods.

(** ** Notions used in the statements *)

(** The folders of class [c] among [ws], in the order of [ws] *)
Definition of_class (c : FolderClass) (ws : list FolderNode) : list FolderNode :=
  List.filter (fun f => bool_decide (cls f = c)) ws.

(** The candidates that survive the scan of lines 109-124: those with a
    localized name or, when there is none, those flagged distinguished. *)
Definition survivors {World} (env : Env World) (fld_class : FolderClass)
    (locale : string) (candidates : list FolderNode) : list FolderNode :=
  let flds := List.filter (has_localized_name env fld_class locale) candidates in
  if is_nil flds then List.filter is_distinguished candidates else flds.

(** The state [st] after further calls [evs] that left the server in [w] *)
Definition logged {World} (st : St World) (w : World) (evs : list Event) : St World :=
  mkSt (self st) (mkRemote w (calls (remote st) ++ evs)).

(** The outcome of the scan of lines 109-129 on the candidates of the
    directory, [e] being the not-found error of the distinguished lookup. *)
Definition scan_result {World} (env : Env World) (fld_class : FolderClass)
    (locale : string) (e : Exn) (candidates : list FolderNode) : Result FolderNode :=
  match survivors env fld_class locale candidates with
  | [] => Raise (ErrorFolderNotFound
                   ("No useable default " +:+ class_name fld_class +:+ " folders") (Some e))
  | [fld] => Ok fld
  | flds => Raise (AssertionError
                     ("Multiple possible default " +:+ class_name fld_class +:+ " folders")
                     (map (folder_str env) flds))
  end.

(** Nothing that is cached in [st] is lost in [st']: the directory, if it is
    there, and every default-folder attribute that is set. *)
Definition caches_kept {World} (st st' : St World) : Prop :=
  (forall d, _folders (self st) = Some d -> _folders (self st') = Some d)
  /\ (forall attr fld, _defaults (self st) !! attr = Some fld ->
                       _defaults (self st') !! attr = Some fld).

(** C1 as the spec states it: the construction with the discovery flag and a
    configuration ends with the configuration conflict, the server and the
    call log being as they were (no call has been made). *)
Definition conflict_before_network {World} (env : Env World) (address : string)
    (fullname access : option string) (credentials : option Credentials)
    (config : Configuration) (verify_ssl : bool) (locale : string) (r : Remote World)
  : Prop :=
  __init__ env address fullname access true credentials (Some config) verify_ssl locale r
  = (Raise (AttributeError "config is ignored when autodiscover is active"), r).

(** ** A concrete mailbox

    An executable instance of the collaborators, used to run the methods on
    concrete inputs.  The server state is the number of requests served. *)
Module Demo.

Definition is_lower (ch : ascii) : bool :=
  Nat.leb 97 (nat_of_ascii ch) && Nat.leb (nat_of_ascii ch) 122.
Definition is_upper (ch : ascii) : bool :=
  Nat.leb 65 (nat_of_ascii ch) && Nat.leb (nat_of_ascii ch) 90.
Definition upper (ch : ascii) : ascii :=
  if is_lower ch then ascii_of_nat (nat_of_ascii ch - 32) else ch.
Definition lower (ch : ascii) : ascii :=
  if is_upper ch then ascii_of_nat (nat_of_ascii ch + 32) else ch.

(** [str.title] on ASCII text: a letter after a letter is lowered, a letter
    after anything else is raised, other characters stay. *)
Fixpoint title_from (previous_is_cased : bool) (s : string) : string :=
  match s with
  | EmptyString => EmptyString
  | String ch s' =>
      if is_lower ch || is_upper ch then
        String (if previous_is_cased then lower ch else upper ch) (title_from true s')
      else String ch (title_from false s')
  end.
Definition title : string -> string := title_from false.

Definition root_folder : FolderNode := mkFolder 0 Root "AAA=" "ck0" "Root" true.
Definition tois : FolderNode := mkFolder 1 Other "AAB=" "ck1" TOIS false.
Definition indbakke : FolderNode := mkFolder 2 Inbox "AAC=" "ck2" "indbakke" false.
Definition indbakke2 : FolderNode := mkFolder 3 Inbox "AAD=" "ck3" "INDBAKKE" false.
Definition notes : FolderNode := mkFolder 4 Other "AAE=" "ck4" "Notes" false.
Definition kalender : FolderNode := mkFolder 5 Calendar "AAF=" "ck5" "Kalender" false.
Definition shared : FolderNode := mkFolder 6 Inbox "AAG=" "ck6" "Shared mail" false.
Definition drafts_folder : FolderNode := mkFolder 7 Drafts "AAH=" "ck7" "Drafts" true.

Definition localized_names (c : FolderClass) : gmap string (list string) :=
  match c with
  | Inbox => {[ "da_DK" := ["Indbakke"] ]}
  | Calendar => {[ "da_DK" := ["Kalender"] ]}
  | _ => ∅
  end.

(** The mailbox answers a distinguished lookup with [lookup], a listing with
    [listing] and autodiscovery with [discovery]. *)
Definition mailbox (lookup : FolderClass -> Result FolderNode)
    (listing : FolderNode -> Depth -> Result (list FolderNode))
    (discovery : Result (string * Protocol)) : Env nat :=
  {| discover := fun _ _ _ w => (discovery, S w);
     get_distinguished := fun c w => (lookup c, S w);
     folder_init := fun c w => (Ok (mkFolder (100 + w) Other "" "" "" false), w);
     get_folders := fun f depth w => (listing f depth, S w);
     folder_filter := fun _ _ w => (Ok tt, S w);
     ExportItems_call := fun ids w => (Ok (map id ids), S w);
     UploadItems_call := fun arg w =>
       (Ok match arg with
           | UploadRaw data => map (fun s => ("raw", s)) data
           | UploadMerged merged_data => map (fun p => ("item-" +:+ snd p, "ck")) merged_data
           end, S w);
     UpdateItem_call := fun items _ _ _ _ w => (Ok (map (fun p => id (fst p)) items), S w);
     DeleteItem_call := fun ids _ _ _ _ w => (Ok (map id ids), S w);
     str_title := title;
     LOCALIZED_NAMES := localized_names;
     folder_str := name;
     id_from_xml := fun s => mkItemId s "";
     DELEGATE := "delegate";
     IMPERSONATION := "impersonation";
     CONFLICT_RESOLUTION_CHOICES := ["NeverOverwrite"; "AutoResolve"; "AlwaysOverwrite"];
     MESSAGE_DISPOSITION_CHOICES := ["SaveOnly"; "SendOnly"; "SendAndSaveCopy"];
     SEND_MEETING_INVITATIONS_AND_CANCELLATIONS_CHOICES :=
       ["SendToNone"; "SendOnlyToAll"; "SendOnlyToChanged"; "SendToAllAndSaveCopy";
        "SendToChangedAndSaveCopy"];
     DELETE_TYPE_CHOICES := ["HardDelete"; "SoftDelete"; "MoveToDeletedItems"];
     SEND_MEETING_CANCELLATIONS_CHOICES :=
       ["SendToNone"; "SendOnlyToAll"; "SendToAllAndSaveCopy"];
     AFFECTED_TASK_OCCURRENCES_CHOICES := ["AllOccurrences"; "SpecifiedOccurrenceOnly"]
  |}.

Definition the_protocol : Protocol := mkProtocol "https://mail.example.com/EWS" "Exchange2013".
Definition the_credentials : Credentials := mkCredentials "anne" "secret".
Definition the_config : Configuration := mkConfiguration the_protocol.

Definition not_found : Result FolderNode :=
  Raise (ErrorFolderNotFound "The specified folder could not be found in the store." None).

(** No inbox by distinguished id, no access to the calendar by id. *)
Definition lookup (c : FolderClass) : Result FolderNode :=
  match c with
  | Inbox => not_found
  | Calendar => Raise (ErrorAccessDenied "Access is denied.")
  | Drafts => Ok drafts_folder
  | Root => Ok root_folder
  | _ => not_found
  end.

(** A root with a "Top of Information Store" that holds [owned]. *)
Definition listing_with_tois (owned : list FolderNode) (f : FolderNode) (depth : Depth)
  : Result (list FolderNode) :=
  if Nat.eqb (oid f) (oid root_folder) then
    match depth with
    | SHALLOW => Ok [shared; tois; notes]
    | DEEP => Ok ([shared; tois; notes] ++ owned)
    end
  else if Nat.eqb (oid f) (oid tois) then Ok owned
  else Ok [].

(** A root without such a container: only a deep listing finds [nested]. *)
Definition listing_flat (nested : list FolderNode) (f : FolderNode) (depth : Depth)
  : Result (list FolderNode) :=
  if Nat.eqb (oid f) (oid root_folder) then
    match depth with
    | SHALLOW => Ok [notes]
    | DEEP => Ok (notes :: nested)
    end
  else Ok [].

Definition env_one : Env nat :=
  mailbox lookup (listing_with_tois [indbakke; notes; kalender])
          (Ok ("anne@example.com", the_protocol)).
Definition env_two : Env nat :=
  mailbox lookup (listing_with_tois [indbakke; notes; indbakke2])
          (Ok ("anne@example.com", the_protocol)).
Definition env_none : Env nat :=
  mailbox lookup (listing_with_tois [shared; notes])
          (Ok ("anne@example.com", the_protocol)).
Definition env_flat : Env nat :=
  mailbox lookup (listing_flat [indbakke; kalender])
          (Ok ("anne@example.com", the_protocol)).
Definition env_offline : Env nat :=
  mailbox lookup (listing_flat []) (Raise (OtherError "Connection refused")).

Definition anne : Account :=
  {| primary_smtp_address := "anne@example.com"; fullname := Some "Anne";
     locale := "da_DK"; access_type := "delegate"; protocol := the_protocol;
     version := "Exchange2013"; root := root_folder;
     _folders := None; _defaults := ∅ |}.

Definition start : St nat := mkSt anne (mkRemote 0 []).

(** The directory access of the resolver's not-found branch for the inbox *)
Definition scanned (env : Env nat) : Result Directory * St nat :=
  folders env (logged start 1 [EvGetDistinguished Inbox]).

Definition directory_of (r : Result Directory * St nat) : Directory :=
  match fst r with
  | Ok d => d
  | Raise _ => ∅
  end.

End Demo.

(** ** Further notions *)



(** The errors of the distinguished lookup that [_get_default_folder] handles
    (the [except] clauses of lines 99 and 105). *)
Definition intercepted (e : Exn) : bool :=
  match e with
  | ErrorAccessDenied _ | ErrorFolderNotFound _ _ => true
  | _ => false
  end.


(** The number of folders in the lists of the directory under the keys [cs] *)
Definition count_under (d : Directory) (cs : list FolderClass) : nat :=
  sum_list (map (fun c => length (default [] (d !! c))) cs).

(** [x], [f x], ... : the first [n] iterates of [f] from [x], and the next one *)
Fixpoint iterates {A} (f : A -> A) (x : A) (n : nat) : list A :=
  match n with
  | 0 => []
  | S n' => x :: iterates f (f x) n'
  end.

Fixpoint advance {A} (f : A -> A) (x : A) (n : nat) : A :=
  match n with
  | 0 => x
  | S n' => advance f (f x) n'
  end.

(** ** subscription.py *)

Module Subscription.

Definition COPIED_EVENT : string := "CopiedEvent".
Definition CREATED_EVENT : string := "CreatedEvent".
Definition DELETED_EVENT : string := "DeletedEvent".
Definition MODIFIED_EVENT : string := "ModifiedEvent".
Definition MOVED_EVENT : string := "MovedEvent".
Definition NEW_MAIL_EVENT : string := "NewMailEvent".
Definition FREE_BUSY_CHANGED_EVENT : string := "FreeBusyChangedEvent".

Definition ALL_EVENTS : list string :=
  [COPIED_EVENT; CREATED_EVENT; DELETED_EVENT; MODIFIED_EVENT; MOVED_EVENT;
   NEW_MAIL_EVENT; FREE_BUSY_CHANGED_EVENT].

(** A service object: the protocol it was constructed with and, for
    [Subscribe], the subscription type. *)
Record Service : Type := mkService {
  service_protocol : Protocol;
  subscription_type : option string
}.

(** The instance attributes of a [Subscription]; [Token] is what
    [Subscribe.call] returns and [GetEvents.call] renews. *)
Record Object (Token : Type) : Type := mkObject {
  sub : Service;
  subscription : Token;
  unsub : Service;
  event_getter : Service
}.
Arguments mkObject {Token} _ _ _ _.
Arguments sub {Token} _.
Arguments subscription {Token} _.
Arguments unsub {Token} _.
Arguments event_getter {Token} _.

(** One entry of the request log per call of a service. *)
Inductive Request (Token : Type) : Type :=
  | ReqSubscribe (service : Service) (events : list string) (folder : FolderNode)
                 (timeout : nat)
  | ReqGetEvents (service : Service) (token : Token)
  | ReqUnsubscribe (service : Service) (token : Token).
Arguments ReqSubscribe {Token} _ _ _ _.
Arguments ReqGetEvents {Token} _ _.
Arguments ReqUnsubscribe {Token} _ _.

(** The services of services.py that subscription.py calls *)
Record Services (World Token : Type) : Type := mkServices {
  Subscribe_call : Service -> list string -> FolderNode -> nat ->
                   World -> Result Token * World;
  GetEvents_call : Service -> Token -> World -> Result (list string * Token) * World;
  Unsubscribe_call : Service -> Token -> World -> Result string * World;
  PULL_SUBSCRIPTION : string
}.
Arguments Subscribe_call {World Token} _ _ _ _ _ _.
Arguments GetEvents_call {World Token} _ _ _ _.
Arguments Unsubscribe_call {World Token} _ _ _ _.
Arguments PULL_SUBSCRIPTION {World Token} _.

(** The server with the log of the requests made *)
Record Wire (World Token : Type) : Type := mkWire {
  server : World;
  requests : list (Request Token)
}.
Arguments mkWire {World Token} _ _.
Arguments server {World Token} _.
Arguments requests {World Token} _.

(** The state of a method call: the subscription object and the server *)
Record State (World Token : Type) : Type := mkState {
  this : Object Token;
  wire : Wire World Token
}.
Arguments mkState {World Token} _ _.
Arguments this {World Token} _.
Arguments wire {World Token} _.

Definition request {World Token A} (rq : Request Token)
    (f : World -> Result A * World) : M (Wire World Token) A :=
  fun r => let (res, w') := f (server r) in
           (res, mkWire w' (requests r ++ [rq])).

Definition on_wire {World Token A} (m : M (Wire World Token) A)
  : M (State World Token) A :=
  fun st => let (res, r') := m (wire st) in (res, mkState (this st) r').

Definition get_this {World Token} : M (State World Token) (Object Token) :=
  fun st => (Ok (this st), st).

Definition update_this {World Token} (f : Object Token -> Object Token)
  : M (State World Token) unit :=
  fun st => (Ok tt, mkState (f (this st)) (wire st)).

Definition set_subscription {Token} (t : Token) (o : Object Token) : Object Token :=
  {| sub := sub o; subscription := t; unsub := unsub o;
     event_getter := event_getter o |}.

Section Methods.

Context {World Token : Type} (services : Services World Token).

(** [Subscription.__init__], lines 23-38; [account] is [folder.account] and
    [timeout] is 20 unless given. *)
Definition __init__ (folder : FolderNode) (account : Account) (events : list string)
    (timeout : option nat) : M (Wire World Token) (Object Token) :=
  let sub := mkService (protocol account) (Some (PULL_SUBSCRIPTION services)) in
  subscription <- request (ReqSubscribe sub events folder (default 20 timeout))
                          (Subscribe_call services sub events folder (default 20 timeout)) ;;
  let unsub := mkService (protocol account) None in
  let event_getter := mkService (protocol account) None in
  ret {| sub := sub; subscription := subscription; unsub := unsub;
         event_getter := event_getter |}.

(** [Subscription.get_events], lines 40-42 *)
Definition get_events : M (State World Token) (list string) :=
  o <- get_this ;;
  answer <- on_wire (request (ReqGetEvents (event_getter o) (subscription o))
                             (GetEvents_call services (event_getter o) (subscription o))) ;;
  update_this (set_subscription (snd answer)) ;;;
  ret (fst answer).

(** [Subscription.unsubscribe], lines 44-46 *)
Definition unsubscribe : M (State World Token) string :=
  o <- get_this ;;
  result <- on_wire (request (ReqUnsubscribe (unsub o) (subscription o))
                             (Unsubscribe_call services (unsub o) (subscription o))) ;;
  ret result.

(** [n] calls of [get_events] in a row, with the events of each *)
Fixpoint poll (n : nat) : M (State World Token) (list (list string)) :=
  match n with
  | 0 => ret []
  | S n' => events <- get_events ;; rest <- poll n' ;; ret (events :: rest)
  end.

End Methods.

End Subscription.

(** ** More mailboxes *)

Module Cases.

Definition flagged : FolderNode := mkFolder 8 Inbox "AAI=" "ck8" "Postfach" true.
Definition plain : FolderNode := mkFolder 9 Inbox "AAJ=" "ck9" "Old mail" false.

Definition timeout_error : Exn := OtherError "Read timed out".

(** As [Demo.lookup], but the lookup of the tasks folder times out. *)
Definition lookup (c : FolderClass) : Result FolderNode :=
  match c with
  | Tasks => Raise timeout_error
  | _ => Demo.lookup c
  end.

(** The root lists; the "Top of Information Store" cannot be listed. *)
Definition listing_tois_fails (f : FolderNode) (depth : Depth)
  : Result (list FolderNode) :=
  if Nat.eqb (oid f) (oid Demo.root_folder) then Ok [Demo.shared; Demo.tois; Demo.notes]
  else Raise timeout_error.

Definition env_flagged : Env nat :=
  Demo.mailbox lookup (Demo.listing_with_tois [plain; flagged; Demo.notes])
               (Ok ("anne.jensen@example.com", Demo.the_protocol)).
Definition env_tois_fails : Env nat :=
  Demo.mailbox lookup listing_tois_fails (Ok ("anne@example.com", Demo.the_protocol)).

(** The account that [env_flagged] gives for "anne@example.com" with
    discovery *)
Definition discovered_account : Account :=
  {| primary_smtp_address := "anne.jensen@example.com"; fullname := None;
     locale := "da_DK"; access_type := "delegate";
     protocol := Demo.the_protocol; version := "Exchange2013";
     root := Demo.root_folder; _folders := None; _defaults := ∅ |}.

(** A subscription server: the token is a watermark that every poll
    advances; the events of a poll name the watermark. *)
Definition services : Subscription.Services nat nat :=
  {| Subscription.Subscribe_call := fun _ _ _ _ w => (Ok 100, S w);
     Subscription.GetEvents_call := fun _ t w =>
       (if Nat.eqb t 102 then Raise timeout_error
        else Ok ([Subscription.NEW_MAIL_EVENT], S t), S w);
     Subscription.Unsubscribe_call := fun _ _ w => (Ok "OK", S w);
     Subscription.PULL_SUBSCRIPTION := "PullSubscriptionRequest" |}.

(** The same server, always answering *)
Definition services_up : Subscription.Services nat nat :=
  {| Subscription.Subscribe_call := fun _ _ _ _ w => (Ok 100, S w);
     Subscription.GetEvents_call := fun _ t w => (Ok ([Subscription.NEW_MAIL_EVENT], S t), S w);
     Subscription.Unsubscribe_call := fun _ _ w => (Ok "OK", S w);
     Subscription.PULL_SUBSCRIPTION := "PullSubscriptionRequest" |}.

Definition subscribed : Subscription.State nat nat :=
  Subscription.mkState
    (Subscription.mkObject
       (Subscription.mkService Demo.the_protocol (Some "PullSubscriptionRequest"))
       100
       (Subscription.mkService Demo.the_protocol None)
       (Subscription.mkService Demo.the_protocol None))
    (Subscription.mkWire 1 []).

(** A subscription whose next poll times out *)
Definition stalled : Subscription.State nat nat :=
  Subscription.mkState
    (Subscription.mkObject
       (Subscription.mkService Demo.the_protocol (Some "PullSubscriptionRequest"))
       102
       (Subscription.mkService Demo.the_protocol None)
       (Subscription.mkService Demo.the_protocol None))
    (Subscription.mkWire 3 []).

End Cases.

(** ** Running the monad in proofs *)

Ltac run :=
  unfold bind, ret, raise, assert, lift, call, get_self, update_self, try_except;
  simpl.

(** ** The folder directory *)

Section DirectoryFacts.

Context {World : Type} (env : Env World).
Implicit Types (st : St World) (d : Directory) (c : FolderClass).

Lemma empty_directory_lookup c : empty_directory !! c = Some [].
Proof. destruct c; reflexivity. Qed.

Lemma of_class_cons_eq f ws : of_class (cls f) (f :: ws) = f :: of_class (cls f) ws.
Proof. unfold of_class. simpl. rewrite bool_decide_eq_true_2; reflexivity. Qed.

Lemma of_class_cons_ne c f ws : cls f <> c -> of_class c (f :: ws) = of_class c ws.
Proof. intros H. unfold of_class. simpl. rewrite bool_decide_eq_false_2; auto. Qed.

Lemma self_with_folders st d :
  _folders (self st) = Some d -> st = mkSt (set_folders d (self st)) (remote st).
Proof.
  destruct st as [a r]. destruct a. simpl. intros ->. reflexivity.
Qed.

Lemma append_folder_run st d l f :
  _folders (self st) = Some d ->
  d !! cls f = Some l ->
  append_folder f st
  = (Ok tt, mkSt (set_folders (<[cls f := l ++ [f]]> d) (self st)) (remote st)).
Proof.
  intros Hd Hl. unfold append_folder, getattr_folders, dict_getitem. run.
  rewrite Hd. simpl. rewrite Hl. reflexivity.
Qed.

(** Line 91 has no fallback for a class that is not a key of the directory. *)
Lemma append_folder_missing_key st d f :
  _folders (self st) = Some d ->
  d !! cls f = None ->
  append_folder f st = (Raise (KeyError (cls f)), st).
Proof.
  intros Hd Hl. unfold append_folder, getattr_folders, dict_getitem. run.
  rewrite Hd. simpl. rewrite Hl. reflexivity.
Qed.

(** The loop of lines 90-91 on a directory with all classes as keys: every
    folder is appended to the list of its class. *)
Lemma for_append_folder ws : forall st d,
  _folders (self st) = Some d ->
  (forall c, is_Some (d !! c)) ->
  exists d',
    for_ ws append_folder st = (Ok tt, mkSt (set_folders d' (self st)) (remote st))
    /\ forall c, d' !! c = (fun l => l ++ of_class c ws) <$> (d !! c).
Proof.
  induction ws as [|f ws IH]; intros st d Hd Htot.
  - exists d. split.
    + simpl. unfold ret. f_equal. apply self_with_folders, Hd.
    + intros c. destruct (d !! c); simpl; [rewrite app_nil_r|]; reflexivity.
  - destruct (Htot (cls f)) as [l Hl].
    destruct (IH (mkSt (set_folders (<[cls f := l ++ [f]]> d) (self st)) (remote st))
                 (<[cls f := l ++ [f]]> d)) as [d' [Hrun Hlook]].
    + reflexivity.
    + intros c. apply lookup_insert_is_Some'. right. apply Htot.
    + exists d'. split.
      * simpl. unfold bind. rewrite (append_folder_run st d l f Hd Hl). exact Hrun.
      * intros c. rewrite Hlook. destruct (decide (cls f = c)) as [<-|Hne].
        -- rewrite of_class_cons_eq, lookup_insert_eq, Hl. simpl.
           rewrite <- app_assoc. reflexivity.
        -- rewrite lookup_insert_ne by exact Hne.
           rewrite of_class_cons_ne by exact Hne. reflexivity.
Qed.

Lemma working_set_self st r st1 :
  working_set env st = (r, st1) -> self st1 = self st.
Proof.
  unfold working_set. run.
  destruct (get_folders env (root (self st)) SHALLOW (world (remote st))) as [[top|e] w1];
    simpl.
  - destruct (List.find _ top) as [tois|]; simpl.
    + destruct (get_folders env tois SHALLOW w1) as [r' w2]. simpl.
      intros H. inversion H. reflexivity.
    + destruct (get_folders env (root (self st)) DEEP w1) as [r' w2]. simpl.
      intros H. inversion H. reflexivity.
  - intros H. inversion H. reflexivity.
Qed.

(** Lines 89-92: from a working set [ws] the property builds, stores and
    returns the directory that maps each class to its folders of [ws]. *)
Lemma folders_build st ws st1 :
  _folders (self st) = None ->
  working_set env st = (Ok ws, st1) ->
  exists d,
    folders env st = (Ok d, mkSt (set_folders d (self st1)) (remote st1))
    /\ forall c, d !! c = Some (of_class c ws).
Proof.
  intros Hnone Hws.
  destruct (for_append_folder ws
              (mkSt (set_folders empty_directory (self st1)) (remote st1))
              empty_directory) as [d [Hrun Hlook]].
  - reflexivity.
  - intros c. rewrite empty_directory_lookup. eauto.
  - exists d. split.
    + unfold folders. unfold bind at 1. unfold get_self at 1. rewrite Hnone.
      unfold bind at 1. rewrite Hws.
      unfold bind at 1. unfold update_self at 1. simpl.
      unfold bind at 1. rewrite Hrun. simpl.
      unfold getattr_folders. run. reflexivity.
    + intros c. rewrite Hlook, empty_directory_lookup. reflexivity.
Qed.

Lemma folders_cached st d :
  _folders (self st) = Some d -> folders env st = (Ok d, st).
Proof. intros H. unfold folders. run. rewrite H. reflexivity. Qed.

Lemma folders_raise st e st1 :
  _folders (self st) = None ->
  working_set env st = (Raise e, st1) ->
  folders env st = (Raise e, st1).
Proof.
  intros Hnone Hws. unfold folders. unfold bind at 1. unfold get_self at 1.
  rewrite Hnone. unfold bind at 1. rewrite Hws. reflexivity.
Qed.

(** A directory that the property returned is the one stored in the account,
    and nothing else of the account has changed. *)
Lemma folders_ok st d st' :
  folders env st = (Ok d, st') ->
  self st' = set_folders d (self st).
Proof.
  intros H. destruct (_folders (self st)) as [d0|] eqn:Hc.
  - rewrite (folders_cached st d0 Hc) in H. inversion H; subst.
    pose proof (self_with_folders st' d Hc) as E.
    rewrite E at 1. reflexivity.
  - destruct (working_set env st) as [[ws|e] st1] eqn:Hws.
    + destruct (folders_build st ws st1 Hc Hws) as [d1 [Hrun _]].
      rewrite Hrun in H. inversion H; subst. simpl.
      rewrite (working_set_self _ _ _ Hws). reflexivity.
    + rewrite (folders_raise st e st1 Hc Hws) in H. discriminate.
Qed.

Lemma folders_again st d st' :
  folders env st = (Ok d, st') -> folders env st' = (Ok d, st').
Proof.
  intros H. apply folders_cached. rewrite (folders_ok st d st' H). reflexivity.
Qed.

End DirectoryFacts.

(** ** The default-folder resolver *)

Section ResolverFacts.

Context {World : Type} (env : Env World).
Implicit Types (st : St World) (d : Directory) (c : FolderClass).

(** The not-found branch, once the directory is there: the result is that
    of the scan, and the state is the one the directory access left. *)
Lemma not_found_scan st c m cause w1 d st2 candidates :
  get_distinguished env c (world (remote st))
    = (Raise (ErrorFolderNotFound m cause), w1) ->
  folders env (logged st w1 [EvGetDistinguished c]) = (Ok d, st2) ->
  d !! c = Some candidates ->
  _get_default_folder env c st
  = (scan_result env c (locale (self st)) (ErrorFolderNotFound m cause) candidates, st2).
Proof.
  intros H1 H2 H3.
  assert (Hloc : locale (self st2) = locale (self st)).
  { rewrite (folders_ok env _ _ _ H2). reflexivity. }
  pose proof (folders_again env _ _ _ H2) as H2'.
  unfold logged in H2.
  unfold _get_default_folder, try_except, lift at 1, call at 1.
  rewrite H1. simpl.
  unfold bind at 1. rewrite H2.
  unfold bind at 1, dict_getitem at 1. rewrite H3. unfold ret at 1.
  unfold bind at 1, get_self at 1. rewrite Hloc.
  unfold scan_result, survivors.
  destruct (List.filter (has_localized_name env c (locale (self st))) candidates)
    as [|f1 [|f2 fs]] eqn:Hf; simpl.
  - unfold bind at 1. unfold bind at 1. rewrite H2'.
    unfold bind at 1, dict_getitem at 1. rewrite H3. run.
    destruct (List.filter is_distinguished candidates) as [|g1 [|g2 gs]];
      reflexivity.
  - reflexivity.
  - reflexivity.
Qed.

End ResolverFacts.

Section ResolverClaims.

Context {World : Type} (env : Env World).
Implicit Types (st : St World) (d : Directory) (c : FolderClass).

(** C2: when the distinguished lookup of a folder type fails with
    folder-not-found and the scan of the directory's candidates for that
    type leaves more than one survivor (those with a localized name, or
    those flagged distinguished when no name is localized), the resolver
    fails with the "Multiple possible default ... folders" assertion error,
    which lists every survivor; it returns none of them. *)
Theorem resolve_ambiguous_raises st c m cause w1 d st2 candidates :
  get_distinguished env c (world (remote st))
    = (Raise (ErrorFolderNotFound m cause), w1) ->
  folders env (logged st w1 [EvGetDistinguished c]) = (Ok d, st2) ->
  d !! c = Some candidates ->
  1 < length (survivors env c (locale (self st)) candidates) ->
  _get_default_folder env c st
  = (Raise (AssertionError
              ("Multiple possible default " +:+ class_name c +:+ " folders")
              (map (folder_str env) (survivors env c (locale (self st)) candidates))),
     st2).
Proof.
  intros H1 H2 H3 Hlen.
  rewrite (not_found_scan env st c m cause w1 d st2 candidates H1 H2 H3).
  unfold scan_result.
  destruct (survivors env c (locale (self st)) candidates) as [|f1 [|f2 fs]];
    simpl in Hlen; try lia.
  reflexivity.
Qed.

(** C3: when the distinguished lookup of a folder type fails with
    folder-not-found and exactly one candidate of that type in the directory
    has a name whose title-cased form is in the localized names of the type
    for the account's locale, the resolver returns that folder. *)
Theorem resolve_unique_localized st c m cause w1 d st2 candidates fld :
  get_distinguished env c (world (remote st))
    = (Raise (ErrorFolderNotFound m cause), w1) ->
  folders env (logged st w1 [EvGetDistinguished c]) = (Ok d, st2) ->
  d !! c = Some candidates ->
  List.filter (has_localized_name env c (locale (self st))) candidates = [fld] ->
  _get_default_folder env c st = (Ok fld, st2).
Proof.
  intros H1 H2 H3 Hone.
  rewrite (not_found_scan env st c m cause w1 d st2 candidates H1 H2 H3).
  unfold scan_result, survivors. rewrite Hone. reflexivity.
Qed.

(** C5: when the distinguished lookup of a folder type fails with
    folder-not-found and neither the localized-name filter nor the
    distinguished-flag filter keeps a candidate of that type, the resolver
    fails with the "No useable default ... folders" error, whose cause is
    the not-found error of the lookup. *)
Theorem resolve_none_usable st c m cause w1 d st2 candidates :
  get_distinguished env c (world (remote st))
    = (Raise (ErrorFolderNotFound m cause), w1) ->
  folders env (logged st w1 [EvGetDistinguished c]) = (Ok d, st2) ->
  d !! c = Some candidates ->
  List.filter (has_localized_name env c (locale (self st))) candidates = [] ->
  List.filter is_distinguished candidates = [] ->
  _get_default_folder env c st
  = (Raise (ErrorFolderNotFound
              ("No useable default " +:+ class_name c +:+ " folders")
              (Some (ErrorFolderNotFound m cause))),
     st2).
Proof.
  intros H1 H2 H3 Hloc Hdist.
  rewrite (not_found_scan env st c m cause w1 d st2 candidates H1 H2 H3).
  unfold scan_result, survivors. rewrite Hloc. simpl. rewrite Hdist. reflexivity.
Qed.

(** C4: when the distinguished lookup of a folder type fails with
    access-denied, the resolver never lists child folders and leaves the
    account (its directory cache included) as it was; when the handle can
    be constructed and probed, the calls are the lookup, the construction of
    a handle of that type and the probe query on that handle, in this order,
    and the handle is returned. *)
Theorem resolve_access_denied_probes st c m w1 :
  get_distinguished env c (world (remote st)) = (Raise (ErrorAccessDenied m), w1) ->
  (forall res st', _get_default_folder env c st = (res, st') ->
     self st' = self st
     /\ exists evs, calls (remote st') = calls (remote st) ++ evs
                    /\ Forall (fun ev => is_listing ev = false) evs)
  /\ (forall h w2 w3,
        folder_init env c w1 = (Ok h, w2) ->
        folder_filter env (instance_of c h) "DUMMY" w2 = (Ok tt, w3) ->
        cls (instance_of c h) = c
        /\ _get_default_folder env c st
           = (Ok (instance_of c h),
              logged st w3 [EvGetDistinguished c; EvFolderInit c;
                            EvFilter (instance_of c h) "DUMMY"])).
Proof.
  intros H1. split.
  - intros res st'. unfold _get_default_folder, new_folder. run. rewrite H1. simpl.
    destruct (folder_init env c w1) as [[h|e] w2]; simpl.
    + destruct (folder_filter env (instance_of c h) "DUMMY" w2) as [[[]|e] w3]; simpl;
        intros H; inversion H; subst; simpl; (split; [reflexivity|]);
        eexists; (split; [rewrite <- !app_assoc; reflexivity|]);
        repeat constructor.
    + intros H; inversion H; subst; simpl. split; [reflexivity|].
      eexists. split; [rewrite <- !app_assoc; reflexivity|]. repeat constructor.
  - intros h w2 w3 Hinit Hprobe. split; [reflexivity|].
    unfold _get_default_folder, new_folder, logged. run.
    rewrite H1. simpl. rewrite Hinit. simpl. rewrite Hprobe. simpl.
    rewrite <- !app_assoc. reflexivity.
Qed.

End ResolverClaims.

(** ** The caches are never dropped *)

Section Caches.

Context {World : Type} (env : Env World).
Implicit Types (st : St World) (d : Directory) (c : FolderClass).

Lemma caches_kept_refl st : caches_kept st st.
Proof. split; auto. Qed.

Lemma caches_kept_trans st1 st2 st3 :
  caches_kept st1 st2 -> caches_kept st2 st3 -> caches_kept st1 st3.
Proof. intros [A1 B1] [A2 B2]. split; auto. Qed.

Lemma append_folder_defaults f st r st' :
  append_folder f st = (r, st') -> _defaults (self st') = _defaults (self st).
Proof.
  unfold append_folder, getattr_folders, dict_getitem. run.
  destruct (_folders (self st)) as [d|]; simpl.
  - destruct (d !! cls f); simpl; intros H; inversion H; reflexivity.
  - intros H; inversion H; reflexivity.
Qed.

Lemma for_append_defaults ws : forall st r st',
  for_ ws append_folder st = (r, st') -> _defaults (self st') = _defaults (self st).
Proof.
  induction ws as [|f ws IH]; intros st r st'; simpl.
  - unfold ret. intros H; inversion H; reflexivity.
  - unfold bind. destruct (append_folder f st) as [[[]|e] st1] eqn:Hf.
    + intros H. rewrite (IH _ _ _ H). exact (append_folder_defaults _ _ _ _ Hf).
    + intros H. inversion H; subst. exact (append_folder_defaults _ _ _ _ Hf).
Qed.

(** Whatever the outcome, the [folders] property keeps a directory that is
    there and never touches the default-folder attributes. *)
Lemma folders_keeps st r st' :
  folders env st = (r, st') -> caches_kept st st'.
Proof.
  intros H. destruct (_folders (self st)) as [d0|] eqn:Hc.
  - rewrite (folders_cached env st d0 Hc) in H. inversion H; subst.
    apply caches_kept_refl.
  - split; [intros d Hd; congruence|].
    assert (E : _defaults (self st') = _defaults (self st)); [|rewrite E; auto].
    revert H. unfold folders. unfold bind at 1, get_self at 1. rewrite Hc.
    unfold bind at 1.
    destruct (working_set env st) as [[ws|e] st1] eqn:Hws.
    + pose proof (working_set_self env _ _ _ Hws) as Hs.
      unfold bind at 1, update_self at 1.
      unfold bind at 1.
      destruct (for_ ws append_folder (mkSt (set_folders empty_directory (self st1))
                                            (remote st1))) as [[[]|e] st2] eqn:Hfor.
      * pose proof (for_append_defaults _ _ _ _ Hfor) as Hd. simpl in Hd.
        unfold getattr_folders. run.
        destruct (_folders (self st2)); simpl; intros H; inversion H; subst;
          rewrite Hd, Hs; reflexivity.
      * pose proof (for_append_defaults _ _ _ _ Hfor) as Hd. simpl in Hd.
        intros H; inversion H; subst. rewrite Hd, Hs. reflexivity.
    + intros H; inversion H; subst.
      rewrite (working_set_self env _ _ _ Hws). reflexivity.
Qed.

Lemma dict_getitem_state {S} d c (s : S) r s' :
  dict_getitem d c s = (r, s') -> s' = s.
Proof.
  unfold dict_getitem. destruct (d !! c); unfold ret, raise; intros H; inversion H;
    reflexivity.
Qed.

(** The resolver keeps both caches on every path. *)
Lemma _get_default_folder_keeps c st r st' :
  _get_default_folder env c st = (r, st') -> caches_kept st st'.
Proof.
  unfold _get_default_folder, try_except, lift at 1, call at 1.
  destruct (get_distinguished env c (world (remote st))) as [[fld|e] w1]; simpl.
  - intros H; inversion H; subst. split; auto.
  - set (st1 := mkSt (self st) (mkRemote w1 (calls (remote st) ++ [EvGetDistinguished c]))).
    assert (K1 : caches_kept st st1) by (split; auto).
    destruct e; try (intros H; inversion H; subst; exact K1).
    + (* access denied *)
      unfold new_folder. run.
      destruct (folder_init env c w1) as [[h|e] w2]; simpl.
      * destruct (folder_filter env (instance_of c h) "DUMMY" w2) as [[[]|e] w3]; simpl;
          intros H; inversion H; subst; split; auto.
      * intros H; inversion H; subst; split; auto.
    + (* not found *)
      unfold bind at 1.
      destruct (folders env st1) as [[d|e] st2] eqn:Hf;
        pose proof (caches_kept_trans _ _ _ K1 (folders_keeps _ _ _ Hf)) as K2;
        [|intros H; inversion H; subst; exact K2].
      unfold bind at 1.
      destruct (dict_getitem d c st2) as [[cands|e] st3] eqn:Hg;
        pose proof (dict_getitem_state _ _ _ _ _ Hg) as ->;
        [|intros H; inversion H; subst; exact K2].
      unfold bind at 1, get_self at 1.
      destruct (List.filter (has_localized_name env c (locale (self st2))) cands)
        as [|f1 fs] eqn:Hloc; simpl.
      * unfold bind at 1. unfold bind at 1.
        destruct (folders env st2) as [[d'|e] st4] eqn:Hf2;
          pose proof (caches_kept_trans _ _ _ K2 (folders_keeps _ _ _ Hf2)) as K4;
          [|intros H; inversion H; subst; exact K4].
        unfold bind at 1.
        destruct (dict_getitem d' c st4) as [[cands'|e] st5] eqn:Hg2;
          pose proof (dict_getitem_state _ _ _ _ _ Hg2) as ->;
          [|intros H; inversion H; subst; exact K4].
        unfold ret at 1.
        destruct (List.filter is_distinguished cands') as [|g1 [|g2 gs]]; simpl;
          run; intros H; inversion H; subst; exact K4.
      * destruct fs as [|f2 fs]; run; intros H; inversion H; subst; exact K2.
Qed.

Lemma default_folder_property_cached attr c st fld :
  _defaults (self st) !! attr = Some fld ->
  default_folder_property env attr c st = (Ok fld, st).
Proof. intros H. unfold default_folder_property. run. rewrite H. reflexivity. Qed.

Lemma default_folder_property_keeps attr c st r st' :
  default_folder_property env attr c st = (r, st') -> caches_kept st st'.
Proof.
  unfold default_folder_property. unfold bind at 1, get_self at 1.
  destruct (_defaults (self st) !! attr) as [cached|] eqn:Hc.
  - unfold ret. intros H; inversion H; subst. apply caches_kept_refl.
  - unfold bind at 1.
    destruct (_get_default_folder env c st) as [[f|e] st1] eqn:Hr;
      pose proof (_get_default_folder_keeps _ _ _ _ Hr) as [KA KB].
    + run. intros H; inversion H; subst. split; simpl.
      * exact KA.
      * intros attr' fld' Hl. destruct (decide (attr = attr')) as [<-|Hne].
        -- congruence.
        -- rewrite lookup_insert_ne by exact Hne. auto.
    + intros H; inversion H; subst. split; assumption.
Qed.

End Caches.

(** ** Discovery, caching and the pass-throughs *)

Section AccountClaims.

Context {World : Type} (env : Env World).
Implicit Types (st : St World) (d : Directory) (c : FolderClass).

Lemma find_first {A} (p : A -> bool) (pre post : list A) (x : A) :
  Forall (fun y => p y = false) pre ->
  p x = true ->
  List.find p (pre ++ x :: post) = Some x.
Proof.
  intros Hpre Hx. induction Hpre as [|y pre Hy _ IH]; simpl.
  - rewrite Hx. reflexivity.
  - rewrite Hy. exact IH.
Qed.

Lemma find_none {A} (p : A -> bool) (l : list A) :
  Forall (fun y => p y = false) l -> List.find p l = None.
Proof.
  intros H. induction H as [|y l Hy _ IH]; simpl; [reflexivity|].
  rewrite Hy. exact IH.
Qed.

Lemma working_set_run st top w1 target depth ws w2 :
  get_folders env (root (self st)) SHALLOW (world (remote st)) = (Ok top, w1) ->
  match List.find (fun folder => String.eqb (name folder) TOIS) top with
  | Some folder => target = folder /\ depth = SHALLOW
  | None => target = root (self st) /\ depth = DEEP
  end ->
  get_folders env target depth w1 = (Ok ws, w2) ->
  working_set env st
  = (Ok ws, logged st w2 [EvGetFolders (root (self st)) SHALLOW;
                          EvGetFolders target depth]).
Proof.
  intros Htop Hsel Hws. unfold working_set, logged.
  unfold bind, lift, call, get_self. rewrite Htop.
  destruct (List.find _ top) as [folder|]; destruct Hsel as [-> ->];
    simpl; rewrite Hws; simpl; rewrite <- !app_assoc; reflexivity.
Qed.

(** C6: on a first discovery, if the shallow listing of the root has a
    folder named "Top of Information Store", the working set is the shallow
    listing of the first such folder and the only calls are these two
    shallow listings (no deep listing of the root); if it has none, the
    working set is the deep listing of the root.  In both cases the
    directory holds the working set by class. *)
Theorem discovery_working_set st top w1 :
  _folders (self st) = None ->
  get_folders env (root (self st)) SHALLOW (world (remote st)) = (Ok top, w1) ->
  (forall pre tois post ws w2,
     top = pre ++ tois :: post ->
     Forall (fun folder => name folder <> TOIS) pre ->
     name tois = TOIS ->
     get_folders env tois SHALLOW w1 = (Ok ws, w2) ->
     exists d,
       folders env st
       = (Ok d, mkSt (set_folders d (self st))
                     (mkRemote w2 (calls (remote st)
                                   ++ [EvGetFolders (root (self st)) SHALLOW;
                                       EvGetFolders tois SHALLOW])))
       /\ forall c, d !! c = Some (of_class c ws))
  /\ (forall ws w2,
        Forall (fun folder => name folder <> TOIS) top ->
        get_folders env (root (self st)) DEEP w1 = (Ok ws, w2) ->
        exists d,
          folders env st
          = (Ok d, mkSt (set_folders d (self st))
                        (mkRemote w2 (calls (remote st)
                                      ++ [EvGetFolders (root (self st)) SHALLOW;
                                          EvGetFolders (root (self st)) DEEP])))
          /\ forall c, d !! c = Some (of_class c ws)).
Proof.
  intros Hnone Htop. split.
  - intros pre tois post ws w2 -> Hpre Hname Hws.
    apply (folders_build env st ws (logged st w2 _) Hnone).
    apply (working_set_run st _ w1 tois SHALLOW ws w2 Htop); [|exact Hws].
    rewrite (find_first _ pre post tois); [split; reflexivity| |].
    + eapply Forall_impl; [exact Hpre|]. simpl. intros f Hf.
      apply String.eqb_neq. exact Hf.
    + apply String.eqb_eq. exact Hname.
  - intros ws w2 Hno Hws.
    apply (folders_build env st ws (logged st w2 _) Hnone).
    apply (working_set_run st _ w1 (root (self st)) DEEP ws w2 Htop); [|exact Hws].
    rewrite find_none; [split; reflexivity|].
    eapply Forall_impl; [exact Hno|]. simpl. intros f Hf.
    apply String.eqb_neq. exact Hf.
Qed.

Lemma elem_of_of_class f ws : f ∈ ws -> f ∈ of_class (cls f) ws.
Proof.
  intros H. apply list_elem_of_In. unfold of_class. apply filter_In.
  split; [apply list_elem_of_In; exact H|]. apply bool_decide_eq_true_2. reflexivity.
Qed.

(** C7: the directory that a first discovery builds from its working set
    has every well-known folder class as a key, and maps each class to the
    folders of that class in the working set, in discovery order; so every
    folder of the working set, those of class [Other] as well, is kept
    under its class. *)
Theorem directory_keeps_every_folder st ws st1 :
  _folders (self st) = None ->
  working_set env st = (Ok ws, st1) ->
  exists d,
    folders env st = (Ok d, mkSt (set_folders d (self st1)) (remote st1))
    /\ (forall c, c ∈ WELLKNOWN_FOLDERS_values -> is_Some (d !! c))
    /\ (forall c, d !! c = Some (of_class c ws))
    /\ (forall f, f ∈ ws -> exists l, d !! cls f = Some l /\ f ∈ l).
Proof.
  intros Hnone Hws.
  destruct (folders_build env st ws st1 Hnone Hws) as [d [Hrun Hlook]].
  exists d. split; [exact Hrun|]. split; [|split].
  - intros c _. rewrite Hlook. eauto.
  - exact Hlook.
  - intros f Hf. exists (of_class (cls f) ws). split; [apply Hlook|].
    apply elem_of_of_class, Hf.
Qed.

Lemma default_folder_property_again attr c st fld st' :
  default_folder_property env attr c st = (Ok fld, st') ->
  default_folder_property env attr c st' = (Ok fld, st').
Proof.
  unfold default_folder_property. run.
  destruct (_defaults (self st) !! attr) as [cached|] eqn:Hc.
  - intros H. inversion H; subst. rewrite Hc. reflexivity.
  - destruct (_get_default_folder env c st) as [[f|e] st1]; simpl; [|discriminate].
    intros H. inversion H; subst. simpl.
    rewrite lookup_insert_eq. reflexivity.
Qed.

Lemma default_folder_properties_spec c accessor :
  (c, accessor) ∈ default_folder_properties env ->
  exists attr, accessor = default_folder_property env attr c.
Proof.
  intros H. apply list_elem_of_In in H. simpl in H.
  repeat (destruct H as [H|H]; [inversion H; subst; eexists; reflexivity|]).
  destruct H.
Qed.

(** C8: a default-folder property that has returned a folder returns the
    same folder object on the next access and leaves the whole state, the
    call log included, as it is (no call is made); the same holds for the
    [folders] property and its directory.  Moreover no access to a property
    or to the directory, whatever its outcome, drops a folder or a directory
    that is cached, so what has been resolved stays resolved. *)
Theorem cached_accessors_idempotent st :
  (forall c accessor fld st',
     (c, accessor) ∈ default_folder_properties env ->
     accessor st = (Ok fld, st') ->
     accessor st' = (Ok fld, st'))
  /\ (forall d st', folders env st = (Ok d, st') -> folders env st' = (Ok d, st'))
  /\ (forall c accessor r st',
        (c, accessor) ∈ default_folder_properties env ->
        accessor st = (r, st') ->
        caches_kept st st')
  /\ (forall r st', folders env st = (r, st') -> caches_kept st st').
Proof.
  split; [|split; [|split]].
  - intros c accessor fld st' Hin Hrun.
    destruct (default_folder_properties_spec c accessor Hin) as [attr ->].
    exact (default_folder_property_again attr c st fld st' Hrun).
  - intros d st'. apply folders_again.
  - intros c accessor r st' Hin Hrun.
    destruct (default_folder_properties_spec c accessor Hin) as [attr ->].
    exact (default_folder_property_keeps env attr c st r st' Hrun).
  - intros r st'. apply folders_keeps.
Qed.

(** C9: with option arguments that pass the assertions on the choice sets,
    [bulk_update] and [bulk_delete] on an empty sequence return the empty
    list and leave the state, the call log included, as it is. *)
Theorem bulk_empty_short_circuits st
    conflict_resolution message_disposition send_meeting_invitations_or_cancellations
    delete_type send_meeting_cancellations affected_task_occurrences
    suppress_read_receipts :
  conflict_resolution ∈ CONFLICT_RESOLUTION_CHOICES env ->
  message_disposition ∈ MESSAGE_DISPOSITION_CHOICES env ->
  send_meeting_invitations_or_cancellations
    ∈ SEND_MEETING_INVITATIONS_AND_CANCELLATIONS_CHOICES env ->
  delete_type ∈ DELETE_TYPE_CHOICES env ->
  send_meeting_cancellations ∈ SEND_MEETING_CANCELLATIONS_CHOICES env ->
  affected_task_occurrences ∈ AFFECTED_TASK_OCCURRENCES_CHOICES env ->
  bulk_update env [] conflict_resolution message_disposition
              send_meeting_invitations_or_cancellations suppress_read_receipts st
    = (Ok [], st)
  /\ bulk_delete env [] delete_type send_meeting_cancellations
                 affected_task_occurrences suppress_read_receipts st
     = (Ok [], st).
Proof.
  intros H1 H2 H3 H4 H5 H6.
  assert (Hb : bool_decide (suppress_read_receipts ∈ [true; false]) = true).
  { destruct suppress_read_receipts; reflexivity. }
  unfold bulk_update, bulk_delete, peek, assert. simpl is_nil.
  rewrite (bool_decide_eq_true_2 _ H1), (bool_decide_eq_true_2 _ H2),
    (bool_decide_eq_true_2 _ H3), (bool_decide_eq_true_2 _ H4),
    (bool_decide_eq_true_2 _ H5), (bool_decide_eq_true_2 _ H6), Hb.
  split; reflexivity.
Qed.

(** C10: [upload(data)] without folders calls the upload service with the
    data as it is and then, if that call returns, once more with every data
    element paired with [None]; what the caller gets is built from the
    result of the second call only. *)
Theorem upload_without_folders_calls_twice st data first w1 second w2 :
  UploadItems_call env (UploadRaw data) (world (remote st)) = (Ok first, w1) ->
  UploadItems_call env (UploadMerged (map (fun data_str => (None, data_str)) data)) w1
    = (second, w2) ->
  upload env data FoldersNone st
  = (match second with
     | Ok upload_ids =>
         Ok (map (fun p => {| id := fst p; item_changekey := snd p |}) upload_ids)
     | Raise e => Raise e
     end,
     logged st w2
       [EvUploadItems (UploadRaw data);
        EvUploadItems (UploadMerged (map (fun data_str => (None, data_str)) data))]).
Proof.
  intros H1 H2. unfold upload, upload_call, logged. run.
  rewrite H1. simpl. rewrite H2. simpl. rewrite <- !app_assoc.
  destruct second; reflexivity.
Qed.

End AccountClaims.

(** ** Construction *)

Section Construction.

Context {World : Type} (env : Env World).

Lemma init_bad_address address fullname access autodiscover credentials config
    verify_ssl locale r :
  contains_char "@"%char address = false ->
  __init__ env address fullname access autodiscover credentials config verify_ssl locale r
  = (Raise (ValueError ("primary_smtp_address '" +:+ address +:+
                        "' is not an email address")), r).
Proof. intros H. unfold __init__. rewrite H. reflexivity. Qed.

Lemma init_bad_access_type address fullname access autodiscover credentials config
    verify_ssl locale r :
  contains_char "@"%char address = true ->
  resolve_access_type env access credentials ∉ [DELEGATE env; IMPERSONATION env] ->
  __init__ env address fullname access autodiscover credentials config verify_ssl locale r
  = (Raise (AssertionError "" []), r).
Proof.
  intros Hat Hacc. unfold __init__. rewrite Hat. simpl negb. cbv iota.
  unfold assert. rewrite (bool_decide_eq_false_2 _ Hacc). reflexivity.
Qed.

(** With a well-formed address, a valid access type, credentials, the
    discovery flag and a configuration, the constructor calls [discover]
    first; the configuration is looked at only after that call has
    returned, and an error of [discover] is raised instead of the
    conflict. *)
Lemma init_checks_config_after_discover address fullname access credentials config
    verify_ssl locale r :
  contains_char "@"%char address = true ->
  resolve_access_type env access (Some credentials) ∈ [DELEGATE env; IMPERSONATION env] ->
  __init__ env address fullname access true (Some credentials) (Some config)
           verify_ssl locale r
  = (match fst (discover env address credentials verify_ssl (world r)) with
     | Ok _ => Raise (AttributeError "config is ignored when autodiscover is active")
     | Raise e => Raise e
     end,
     mkRemote (snd (discover env address credentials verify_ssl (world r)))
              (calls r ++ [EvDiscover address credentials verify_ssl])).
Proof.
  intros Hat Hacc. unfold __init__. rewrite Hat. simpl negb. cbv iota.
  unfold assert. rewrite (bool_decide_eq_true_2 _ Hacc). run.
  destruct (discover env address credentials verify_ssl (world r)) as [[ap|e] w];
    reflexivity.
Qed.

(** The constructor with both the discovery flag and a configuration, guard
    by guard: it never yields an account.  An address without an at sign, an
    invalid access type and missing credentials are each rejected first, with
    their own error and without any call; when these checks pass and
    discovery returns, the error is the configuration conflict. *)
Lemma init_with_both_sources_fails address fullname access credentials config
    verify_ssl locale r :
  (forall a r', __init__ env address fullname access true credentials (Some config)
                  verify_ssl locale r <> (Ok a, r'))
  /\ (contains_char "@"%char address = false ->
      __init__ env address fullname access true credentials (Some config)
               verify_ssl locale r
      = (Raise (ValueError ("primary_smtp_address '" +:+ address +:+
                            "' is not an email address")), r))
  /\ (contains_char "@"%char address = true ->
      resolve_access_type env access credentials ∉ [DELEGATE env; IMPERSONATION env] ->
      __init__ env address fullname access true credentials (Some config)
               verify_ssl locale r
      = (Raise (AssertionError "" []), r))
  /\ (contains_char "@"%char address = true ->
      resolve_access_type env access credentials ∈ [DELEGATE env; IMPERSONATION env] ->
      credentials = None ->
      __init__ env address fullname access true credentials (Some config)
               verify_ssl locale r
      = (Raise (AttributeError "autodiscover requires credentials"), r))
  /\ (contains_char "@"%char address = true ->
      resolve_access_type env access credentials ∈ [DELEGATE env; IMPERSONATION env] ->
      forall cr ap w,
        credentials = Some cr ->
        discover env address cr verify_ssl (world r) = (Ok ap, w) ->
        fst (__init__ env address fullname access true credentials (Some config)
                      verify_ssl locale r)
        = Raise (AttributeError "config is ignored when autodiscover is active")).
Proof.
  split; [|split; [|split; [|split]]].
  - intros a r'.
    destruct (contains_char "@"%char address) eqn:Hat.
    + destruct (decide (resolve_access_type env access credentials
                        ∈ [DELEGATE env; IMPERSONATION env])) as [Hacc|Hacc].
      * destruct credentials as [cr|].
        -- rewrite (init_checks_config_after_discover _ _ _ _ _ _ _ _ Hat Hacc).
           destruct (fst (discover env address cr verify_ssl (world r))); discriminate.
        -- unfold __init__. rewrite Hat. simpl negb. cbv iota.
           unfold assert. rewrite (bool_decide_eq_true_2 _ Hacc). discriminate.
      * rewrite (init_bad_access_type _ _ _ _ _ _ _ _ _ Hat Hacc). discriminate.
    + rewrite (init_bad_address _ _ _ _ _ _ _ _ _ Hat). discriminate.
  - apply init_bad_address.
  - apply init_bad_access_type.
  - intros Hat Hacc ->. unfold __init__. rewrite Hat. simpl negb. cbv iota.
    unfold assert. rewrite (bool_decide_eq_true_2 _ Hacc). reflexivity.
  - intros Hat Hacc cr ap w -> Hdisc.
    rewrite (init_checks_config_after_discover _ _ _ _ _ _ _ _ Hat Hacc).
    rewrite Hdisc. reflexivity.
Qed.

End Construction.

(** The same construction with an address that has no at sign: the address
    guard of line 25 comes first. *)
Example init_rejects_address_first :
  __init__ Demo.env_one "anne" None None true
           (Some Demo.the_credentials) (Some Demo.the_config) true "da_DK" (mkRemote 0 [])
  = (Raise (ValueError "primary_smtp_address 'anne' is not an email address"),
     mkRemote 0 []).
Proof. reflexivity. Qed.

(** C1 (the code does otherwise): constructing an account with both the
    discovery flag and a configuration is to fail with the configuration
    conflict before any network access.  On a well-formed address with
    credentials the constructor has called [discover] (line 36) by the time
    it raises the conflict (line 39), so the construction does not end as C1
    states it; and when [discover] fails, its error is raised and the
    conflict is not reported at all. *)
Theorem init_discovers_before_conflict :
  __init__ Demo.env_one "anne@example.com" None None true
           (Some Demo.the_credentials) (Some Demo.the_config) true "da_DK" (mkRemote 0 [])
  = (Raise (AttributeError "config is ignored when autodiscover is active"),
     mkRemote 1 [EvDiscover "anne@example.com" Demo.the_credentials true])
  /\ ~ conflict_before_network Demo.env_one "anne@example.com" None None
         (Some Demo.the_credentials) Demo.the_config true "da_DK" (mkRemote 0 [])
  /\ __init__ Demo.env_offline "anne@example.com" None None true
              (Some Demo.the_credentials) (Some Demo.the_config) true "da_DK" (mkRemote 0 [])
     = (Raise (OtherError "Connection refused"),
        mkRemote 1 [EvDiscover "anne@example.com" Demo.the_credentials true]).
Proof.
  assert (Hrun : __init__ Demo.env_one "anne@example.com" None None true
                   (Some Demo.the_credentials) (Some Demo.the_config) true "da_DK"
                   (mkRemote 0 [])
                 = (Raise (AttributeError "config is ignored when autodiscover is active"),
                    mkRemote 1 [EvDiscover "anne@example.com" Demo.the_credentials true]))
    by reflexivity.
  split; [exact Hrun|split; [|reflexivity]].
  unfold conflict_before_network. rewrite Hrun. intros H. discriminate H.
Qed.

(** ** Runs on the concrete mailbox *)

Example title_lowers_inner_capitals : Demo.title "INDBAKKE e-mail2x" = "Indbakke E-Mail2X".
Proof. reflexivity. Qed.

(** Without the discovery flag the configuration gives the protocol, and the
    only call is the lookup of the root folder. *)
Example init_with_config :
  __init__ Demo.env_one "anne@example.com" (Some "Anne") None false None
           (Some Demo.the_config) true "da_DK" (mkRemote 0 [])
  = (Ok {| primary_smtp_address := "anne@example.com"; fullname := Some "Anne";
           locale := "da_DK"; access_type := "impersonation";
           protocol := Demo.the_protocol; version := "Exchange2013";
           root := Demo.root_folder; _folders := None; _defaults := ∅ |},
     mkRemote 1 [EvGetDistinguished Root]).
Proof. vm_compute. reflexivity. Qed.

Example init_without_sources :
  fst (__init__ Demo.env_one "anne@example.com" None None false None None true "da_DK"
                (mkRemote 0 []))
  = Raise (AttributeError "non-autodiscover requires a config").
Proof. vm_compute. reflexivity. Qed.

Example str_of_account : __str__ Demo.anne = "anne@example.com (Anne)".
Proof. reflexivity. Qed.

(** A distinguished lookup that succeeds is the only call. *)
Example drafts_by_distinguished_id :
  drafts Demo.env_one Demo.start
  = (Ok Demo.drafts_folder,
     mkSt (set_default "_drafts" Demo.drafts_folder Demo.anne)
          (mkRemote 1 [EvGetDistinguished Drafts])).
Proof. vm_compute. reflexivity. Qed.

(** Without a "Top of Information Store" the inbox is found by the deep
    listing. *)
Example inbox_by_deep_listing :
  fst (inbox Demo.env_flat Demo.start) = Ok Demo.indbakke
  /\ calls (remote (snd (inbox Demo.env_flat Demo.start)))
     = [EvGetDistinguished Inbox; EvGetFolders Demo.root_folder SHALLOW;
        EvGetFolders Demo.root_folder DEEP].
Proof. split; vm_compute; reflexivity. Qed.

(** One folder for all the data: a single call. *)
Example upload_into_one_folder :
  upload Demo.env_one ["a"; "b"] (FoldersOne Demo.notes) Demo.start
  = (Ok [mkItemId "item-a" "ck"; mkItemId "item-b" "ck"],
     logged Demo.start 1
       [EvUploadItems (UploadMerged [(Some Demo.notes, "a"); (Some Demo.notes, "b")])]).
Proof. vm_compute. reflexivity. Qed.

(** A folder per data element: the pairs stop with the shorter sequence. *)
Example upload_into_folders :
  upload Demo.env_one ["a"; "b"] (FoldersMany [Demo.notes]) Demo.start
  = (Ok [mkItemId "item-a" "ck"],
     logged Demo.start 1 [EvUploadItems (UploadMerged [(Some Demo.notes, "a")])]).
Proof. vm_compute. reflexivity. Qed.

(** An option outside its choice set fails the assertion before the input is
    looked at. *)
Example bulk_update_rejects_option :
  bulk_update Demo.env_one [] "Overwrite" "SaveOnly" "SendToNone" true Demo.start
  = (Raise (AssertionError "" []), Demo.start).
Proof. vm_compute. reflexivity. Qed.

Example bulk_delete_calls_service :
  bulk_delete Demo.env_one [mkItemId "AAM=" "ck"] "HardDelete" "SendToNone"
              "SpecifiedOccurrenceOnly" true Demo.start
  = (Ok ["AAM="], logged Demo.start 1 [EvDeleteItem [mkItemId "AAM=" "ck"]]).
Proof. vm_compute. reflexivity. Qed.

(** ** The theorems on the concrete mailbox *)

Lemma resolve_ambiguous_raises_witness :
  fst (_get_default_folder Demo.env_two Inbox Demo.start)
  = Raise (AssertionError "Multiple possible default Inbox folders"
             ["indbakke"; "INDBAKKE"]).
Proof.
  assert (H1 : get_distinguished Demo.env_two Inbox (world (remote Demo.start))
               = (Raise (ErrorFolderNotFound
                           "The specified folder could not be found in the store." None), 1))
    by reflexivity.
  assert (H2 : folders Demo.env_two (logged Demo.start 1 [EvGetDistinguished Inbox])
               = (Ok (Demo.directory_of (Demo.scanned Demo.env_two)),
                  snd (Demo.scanned Demo.env_two)))
    by (vm_compute; reflexivity).
  assert (H3 : Demo.directory_of (Demo.scanned Demo.env_two) !! Inbox
               = Some [Demo.indbakke; Demo.indbakke2])
    by (vm_compute; reflexivity).
  assert (H4 : 1 < length (survivors Demo.env_two Inbox (locale (self Demo.start))
                             [Demo.indbakke; Demo.indbakke2]))
    by (vm_compute; lia).
  rewrite (resolve_ambiguous_raises Demo.env_two Demo.start Inbox _ _ _ _ _ _ H1 H2 H3 H4).
  reflexivity.
Defined.

Lemma resolve_unique_localized_witness :
  fst (_get_default_folder Demo.env_one Inbox Demo.start) = Ok Demo.indbakke.
Proof.
  assert (H1 : get_distinguished Demo.env_one Inbox (world (remote Demo.start))
               = (Raise (ErrorFolderNotFound
                           "The specified folder could not be found in the store." None), 1))
    by reflexivity.
  assert (H2 : folders Demo.env_one (logged Demo.start 1 [EvGetDistinguished Inbox])
               = (Ok (Demo.directory_of (Demo.scanned Demo.env_one)),
                  snd (Demo.scanned Demo.env_one)))
    by (vm_compute; reflexivity).
  assert (H3 : Demo.directory_of (Demo.scanned Demo.env_one) !! Inbox
               = Some [Demo.indbakke])
    by (vm_compute; reflexivity).
  assert (H4 : List.filter (has_localized_name Demo.env_one Inbox (locale (self Demo.start)))
                 [Demo.indbakke] = [Demo.indbakke])
    by (vm_compute; reflexivity).
  rewrite (resolve_unique_localized Demo.env_one Demo.start Inbox _ _ _ _ _ _ _ H1 H2 H3 H4).
  reflexivity.
Defined.

Lemma resolve_none_usable_witness :
  fst (_get_default_folder Demo.env_none Inbox Demo.start)
  = Raise (ErrorFolderNotFound "No useable default Inbox folders"
             (Some (ErrorFolderNotFound
                      "The specified folder could not be found in the store." None))).
Proof.
  assert (H1 : get_distinguished Demo.env_none Inbox (world (remote Demo.start))
               = (Raise (ErrorFolderNotFound
                           "The specified folder could not be found in the store." None), 1))
    by reflexivity.
  assert (H2 : folders Demo.env_none (logged Demo.start 1 [EvGetDistinguished Inbox])
               = (Ok (Demo.directory_of (Demo.scanned Demo.env_none)),
                  snd (Demo.scanned Demo.env_none)))
    by (vm_compute; reflexivity).
  assert (H3 : Demo.directory_of (Demo.scanned Demo.env_none) !! Inbox
               = Some [Demo.shared])
    by (vm_compute; reflexivity).
  assert (H4 : List.filter (has_localized_name Demo.env_none Inbox (locale (self Demo.start)))
                 [Demo.shared] = [])
    by (vm_compute; reflexivity).
  assert (H5 : List.filter is_distinguished [Demo.shared] = []) by reflexivity.
  rewrite (resolve_none_usable Demo.env_none Demo.start Inbox _ _ _ _ _ _ H1 H2 H3 H4 H5).
  reflexivity.
Defined.

Lemma resolve_access_denied_probes_witness :
  _get_default_folder Demo.env_one Calendar Demo.start
  = (Ok (mkFolder 101 Calendar "" "" "" false),
     logged Demo.start 2
       [EvGetDistinguished Calendar; EvFolderInit Calendar;
        EvFilter (mkFolder 101 Calendar "" "" "" false) "DUMMY"]).
Proof.
  assert (H1 : get_distinguished Demo.env_one Calendar (world (remote Demo.start))
               = (Raise (ErrorAccessDenied "Access is denied."), 1))
    by reflexivity.
  assert (H2 : folder_init Demo.env_one Calendar 1
               = (Ok (mkFolder 101 Other "" "" "" false), 1))
    by reflexivity.
  assert (H3 : folder_filter Demo.env_one
                 (instance_of Calendar (mkFolder 101 Other "" "" "" false)) "DUMMY" 1
               = (Ok tt, 2))
    by reflexivity.
  exact (proj2 (proj2 (resolve_access_denied_probes Demo.env_one Demo.start Calendar _ _ H1)
                  _ _ _ H2 H3)).
Defined.

Lemma discovery_working_set_witness :
  (exists d,
     folders Demo.env_one Demo.start
     = (Ok d, mkSt (set_folders d Demo.anne)
                   (mkRemote 2 [EvGetFolders Demo.root_folder SHALLOW;
                                EvGetFolders Demo.tois SHALLOW]))
     /\ forall c, d !! c = Some (of_class c [Demo.indbakke; Demo.notes; Demo.kalender]))
  /\ (exists d,
        folders Demo.env_flat Demo.start
        = (Ok d, mkSt (set_folders d Demo.anne)
                      (mkRemote 2 [EvGetFolders Demo.root_folder SHALLOW;
                                   EvGetFolders Demo.root_folder DEEP]))
        /\ forall c, d !! c = Some (of_class c [Demo.notes; Demo.indbakke; Demo.kalender])).
Proof.
  split.
  - apply (proj1 (discovery_working_set Demo.env_one Demo.start
                    [Demo.shared; Demo.tois; Demo.notes] 1 eq_refl eq_refl)
             [Demo.shared] Demo.tois [Demo.notes]
             [Demo.indbakke; Demo.notes; Demo.kalender] 2).
    + reflexivity.
    + repeat constructor. vm_compute. discriminate.
    + reflexivity.
    + reflexivity.
  - apply (proj2 (discovery_working_set Demo.env_flat Demo.start [Demo.notes] 1
                    eq_refl eq_refl)
             [Demo.notes; Demo.indbakke; Demo.kalender] 2).
    + repeat constructor. vm_compute. discriminate.
    + reflexivity.
Defined.

Lemma directory_keeps_every_folder_witness :
  exists d,
    folders Demo.env_one Demo.start
    = (Ok d, mkSt (set_folders d Demo.anne)
                  (mkRemote 2 [EvGetFolders Demo.root_folder SHALLOW;
                               EvGetFolders Demo.tois SHALLOW]))
    /\ (forall c, c ∈ WELLKNOWN_FOLDERS_values -> is_Some (d !! c))
    /\ (forall c, d !! c = Some (of_class c [Demo.indbakke; Demo.notes; Demo.kalender]))
    /\ (forall f, f ∈ [Demo.indbakke; Demo.notes; Demo.kalender] ->
                  exists l, d !! cls f = Some l /\ f ∈ l).
Proof.
  apply (directory_keeps_every_folder Demo.env_one Demo.start
           [Demo.indbakke; Demo.notes; Demo.kalender]
           (logged Demo.start 2 [EvGetFolders Demo.root_folder SHALLOW;
                                 EvGetFolders Demo.tois SHALLOW])).
  - reflexivity.
  - vm_compute. reflexivity.
Defined.

Lemma cached_accessors_idempotent_witness :
  inbox Demo.env_one (snd (inbox Demo.env_one Demo.start))
  = (Ok Demo.indbakke, snd (inbox Demo.env_one Demo.start))
  /\ folders Demo.env_one (snd (folders Demo.env_one Demo.start))
     = (Ok (Demo.directory_of (folders Demo.env_one Demo.start)),
        snd (folders Demo.env_one Demo.start))
  /\ caches_kept (snd (inbox Demo.env_one Demo.start))
                 (snd (calendar Demo.env_one (snd (inbox Demo.env_one Demo.start)))).
Proof.
  assert (Hin : forall c accessor,
             (c, accessor) = (Inbox, inbox Demo.env_one)
             \/ (c, accessor) = (Calendar, calendar Demo.env_one) ->
             (c, accessor) ∈ default_folder_properties Demo.env_one).
  { intros c accessor [->| ->]; unfold default_folder_properties.
    - do 3 apply list_elem_of_further. apply list_elem_of_here.
    - apply list_elem_of_here. }
  split; [|split].
  - apply (proj1 (cached_accessors_idempotent Demo.env_one Demo.start)
             Inbox (inbox Demo.env_one) Demo.indbakke (snd (inbox Demo.env_one Demo.start))).
    + apply Hin. left. reflexivity.
    + vm_compute. reflexivity.
  - apply (proj1 (proj2 (cached_accessors_idempotent Demo.env_one Demo.start))).
    vm_compute. reflexivity.
  - apply (proj1 (proj2 (proj2 (cached_accessors_idempotent Demo.env_one
                                  (snd (inbox Demo.env_one Demo.start)))))
             Calendar (calendar Demo.env_one)
             (fst (calendar Demo.env_one (snd (inbox Demo.env_one Demo.start))))).
    + apply Hin. right. reflexivity.
    + vm_compute. reflexivity.
Defined.

Lemma bulk_empty_short_circuits_witness :
  bulk_update Demo.env_one [] "AutoResolve" "SaveOnly" "SendToNone" true Demo.start
    = (Ok [], Demo.start)
  /\ bulk_delete Demo.env_one [] "HardDelete" "SendToNone" "SpecifiedOccurrenceOnly" true
                 Demo.start
     = (Ok [], Demo.start).
Proof.
  apply (bulk_empty_short_circuits Demo.env_one Demo.start); simpl.
  - right. left.
  - left.
  - left.
  - left.
  - left.
  - right. left.
Defined.

Lemma upload_without_folders_calls_twice_witness :
  upload Demo.env_one ["a"; "b"] FoldersNone Demo.start
  = (Ok [mkItemId "item-a" "ck"; mkItemId "item-b" "ck"],
     logged Demo.start 2
       [EvUploadItems (UploadRaw ["a"; "b"]);
        EvUploadItems (UploadMerged [(None, "a"); (None, "b")])]).
Proof.
  apply (upload_without_folders_calls_twice Demo.env_one Demo.start ["a"; "b"]
           [("raw", "a"); ("raw", "b")] 1
           (Ok [("item-a", "ck"); ("item-b", "ck")]) 2); reflexivity.
Defined.

(** ** What the methods leave alone *)

Section Frames.

Context {World : Type} (env : Env World).
Implicit Types (st : St World) (d : Directory) (c : FolderClass) (a : Account).











(** X1: when the distinguished lookup returns a folder, a first access to a
    property returns it and stores it under the property's attribute; the
    lookup is the only call and the directory cache is not touched. *)
Theorem property_resolves_by_distinguished_id attr c st fld w1 :
  _defaults (self st) !! attr = None ->
  get_distinguished env c (world (remote st)) = (Ok fld, w1) ->
  default_folder_property env attr c st
  = (Ok fld, mkSt (set_default attr fld (self st))
                  (mkRemote w1 (calls (remote st) ++ [EvGetDistinguished c]))).
Proof.
  intros Hc Hl. unfold default_folder_property, _get_default_folder. run.
  rewrite Hc, Hl. reflexivity.
Qed.

(** X2: an error of the distinguished lookup other than access-denied and
    folder-not-found is raised as it is, after that one call, by the resolver
    and by a property that has nothing cached; the account is as before. *)
Theorem resolve_other_error_propagates c st e w1 :
  intercepted e = false ->
  get_distinguished env c (world (remote st)) = (Raise e, w1) ->
  _get_default_folder env c st = (Raise e, logged st w1 [EvGetDistinguished c])
  /\ forall attr,
       _defaults (self st) !! attr = None ->
       default_folder_property env attr c st
       = (Raise e, logged st w1 [EvGetDistinguished c]).
Proof.
  intros He Hl.
  assert (Hr : _get_default_folder env c st
               = (Raise e, logged st w1 [EvGetDistinguished c])).
  { unfold _get_default_folder, logged. run. rewrite Hl.
    destruct e; try discriminate He; reflexivity. }
  split; [exact Hr|].
  intros attr Hc. unfold default_folder_property. unfold bind at 1, get_self at 1.
  rewrite Hc. unfold bind at 1. rewrite Hr. reflexivity.
Qed.

End Frames.

(** ** More on discovery *)

Section DiscoveryMore.

Context {World : Type} (env : Env World).
Implicit Types (st : St World) (d : Directory) (c : FolderClass).

Lemma working_set_first_fails st e w1 :
  get_folders env (root (self st)) SHALLOW (world (remote st)) = (Raise e, w1) ->
  working_set env st = (Raise e, logged st w1 [EvGetFolders (root (self st)) SHALLOW]).
Proof.
  intros H. unfold working_set, logged. unfold bind, lift, call, get_self.
  rewrite H. reflexivity.
Qed.

Lemma working_set_second_fails st top w1 target depth e w2 :
  get_folders env (root (self st)) SHALLOW (world (remote st)) = (Ok top, w1) ->
  match List.find (fun folder => String.eqb (name folder) TOIS) top with
  | Some folder => target = folder /\ depth = SHALLOW
  | None => target = root (self st) /\ depth = DEEP
  end ->
  get_folders env target depth w1 = (Raise e, w2) ->
  working_set env st
  = (Raise e, logged st w2 [EvGetFolders (root (self st)) SHALLOW;
                            EvGetFolders target depth]).
Proof.
  intros Htop Hsel Hws. unfold working_set, logged.
  unfold bind, lift, call, get_self. rewrite Htop.
  destruct (List.find _ top) as [folder|]; destruct Hsel as [-> ->];
    simpl; rewrite Hws; simpl; rewrite <- !app_assoc; reflexivity.
Qed.

(** X8: on a first discovery an error of a listing is raised as it is and nothing
    is cached.  When the listing of the root fails, no other listing is
    tried; when the listing of the "Top of Information Store" fails, the root
    is not listed deeply instead. *)
Theorem discovery_failure_propagates st :
  _folders (self st) = None ->
  (forall e w1,
     get_folders env (root (self st)) SHALLOW (world (remote st)) = (Raise e, w1) ->
     folders env st = (Raise e, logged st w1 [EvGetFolders (root (self st)) SHALLOW]))
  /\ (forall pre tois post w1 e w2,
        get_folders env (root (self st)) SHALLOW (world (remote st))
          = (Ok (pre ++ tois :: post), w1) ->
        Forall (fun folder => name folder <> TOIS) pre ->
        name tois = TOIS ->
        get_folders env tois SHALLOW w1 = (Raise e, w2) ->
        folders env st
        = (Raise e, logged st w2 [EvGetFolders (root (self st)) SHALLOW;
                                  EvGetFolders tois SHALLOW]))
  /\ (forall top w1 e w2,
        get_folders env (root (self st)) SHALLOW (world (remote st)) = (Ok top, w1) ->
        Forall (fun folder => name folder <> TOIS) top ->
        get_folders env (root (self st)) DEEP w1 = (Raise e, w2) ->
        folders env st
        = (Raise e, logged st w2 [EvGetFolders (root (self st)) SHALLOW;
                                  EvGetFolders (root (self st)) DEEP])).
Proof.
  intros Hnone. split; [|split].
  - intros e w1 H. apply (folders_raise env st e _ Hnone).
    apply working_set_first_fails, H.
  - intros pre tois post w1 e w2 Htop Hpre Hname Hws.
    apply (folders_raise env st e _ Hnone).
    apply (working_set_second_fails st _ w1 tois SHALLOW e w2 Htop); [|exact Hws].
    rewrite (find_first _ pre post tois); [split; reflexivity| |].
    + eapply Forall_impl; [exact Hpre|]. simpl. intros f Hf.
      apply String.eqb_neq. exact Hf.
    + apply String.eqb_eq. exact Hname.
  - intros top w1 e w2 Htop Hno Hws.
    apply (folders_raise env st e _ Hnone).
    apply (working_set_second_fails st _ w1 (root (self st)) DEEP e w2 Htop); [|exact Hws].
    rewrite find_none; [split; reflexivity|].
    eapply Forall_impl; [exact Hno|]. simpl. intros f Hf.
    apply String.eqb_neq. exact Hf.
Qed.

Lemma count_of_class ws :
  sum_list (map (fun c => length (of_class c ws)) WELLKNOWN_FOLDERS_values) = length ws.
Proof.
  induction ws as [|f ws IH]; [reflexivity|].
  unfold WELLKNOWN_FOLDERS_values, of_class in *. cbn [map sum_list List.filter] in *.
  destruct (cls f);
    repeat (rewrite bool_decide_eq_false_2 by discriminate);
    rewrite bool_decide_eq_true_2 by reflexivity;
    repeat (rewrite bool_decide_eq_false_2 by discriminate);
    cbn [length]; unfold Datatypes.id in *; lia.
Qed.

Lemma elem_of_of_class_inv c f ws : f ∈ of_class c ws -> cls f = c /\ f ∈ ws.
Proof.
  intros H. apply list_elem_of_In in H. unfold of_class in H.
  apply filter_In in H as [Hin Hc]. split.
  - apply bool_decide_eq_true_1 in Hc. exact Hc.
  - apply list_elem_of_In. exact Hin.
Qed.

(** X9: the directory of a first discovery partitions the working set: a folder
    under a key has the class of the key and comes from the working set, and
    the lists of the directory hold as many folders as the working set, so no
    folder is stored twice or under two keys. *)
Theorem directory_partitions_working_set st ws st1 d st' :
  _folders (self st) = None ->
  working_set env st = (Ok ws, st1) ->
  folders env st = (Ok d, st') ->
  (forall c l f, d !! c = Some l -> f ∈ l -> cls f = c /\ f ∈ ws)
  /\ count_under d WELLKNOWN_FOLDERS_values = length ws.
Proof.
  intros Hnone Hws Hrun.
  destruct (folders_build env st ws st1 Hnone Hws) as [d1 [Hrun1 Hlook]].
  rewrite Hrun1 in Hrun. inversion Hrun; subst. split.
  - intros c l f Hl Hf. rewrite Hlook in Hl. inversion Hl; subst.
    apply elem_of_of_class_inv, Hf.
  - unfold count_under. rewrite <- (count_of_class ws). f_equal.
    apply map_ext. intros c. rewrite Hlook. reflexivity.
Qed.

End DiscoveryMore.

(** ** More on the resolver *)

Section ResolverMore.

Context {World : Type} (env : Env World).
Implicit Types (st : St World) (d : Directory) (c : FolderClass).

(** X4: when the distinguished lookup fails with folder-not-found, no candidate of
    the class has a localized name and exactly one is flagged distinguished,
    the resolver returns that one. *)
Theorem resolve_unique_distinguished st c m cause w1 d st2 candidates fld :
  get_distinguished env c (world (remote st))
    = (Raise (ErrorFolderNotFound m cause), w1) ->
  folders env (logged st w1 [EvGetDistinguished c]) = (Ok d, st2) ->
  d !! c = Some candidates ->
  List.filter (has_localized_name env c (locale (self st))) candidates = [] ->
  List.filter is_distinguished candidates = [fld] ->
  _get_default_folder env c st = (Ok fld, st2).
Proof.
  intros H1 H2 H3 Hloc Hdist.
  rewrite (not_found_scan env st c m cause w1 d st2 candidates H1 H2 H3).
  unfold scan_result, survivors. rewrite Hloc. simpl. rewrite Hdist. reflexivity.
Qed.

Lemma filter_singleton_elem {A} (p : A -> bool) (l : list A) (x : A) :
  List.filter p l = [x] -> x ∈ l /\ p x = true.
Proof.
  intros H. assert (Hin : In x (List.filter p l)) by (rewrite H; left; reflexivity).
  apply filter_In in Hin as [Hin Hp]. split; [apply list_elem_of_In, Hin|exact Hp].
Qed.

(** X5: a folder that the scan returns is one of the candidates of the requested
    class in the directory, and it is the only one with a localized name or,
    when no candidate has a localized name, the only one flagged
    distinguished. *)
Theorem resolve_result_is_candidate st c m cause w1 d st2 candidates fld st' :
  get_distinguished env c (world (remote st))
    = (Raise (ErrorFolderNotFound m cause), w1) ->
  folders env (logged st w1 [EvGetDistinguished c]) = (Ok d, st2) ->
  d !! c = Some candidates ->
  _get_default_folder env c st = (Ok fld, st') ->
  fld ∈ candidates
  /\ (List.filter (has_localized_name env c (locale (self st))) candidates = [fld]
      \/ (List.filter (has_localized_name env c (locale (self st))) candidates = []
          /\ List.filter is_distinguished candidates = [fld])).
Proof.
  intros H1 H2 H3.
  rewrite (not_found_scan env st c m cause w1 d st2 candidates H1 H2 H3).
  unfold scan_result, survivors.
  destruct (List.filter (has_localized_name env c (locale (self st))) candidates)
    as [|f1 [|f2 fs]] eqn:Hloc; simpl.
  - destruct (List.filter is_distinguished candidates) as [|g1 [|g2 gs]] eqn:Hdist;
      intros H; inversion H; subst.
    split; [apply (filter_singleton_elem _ _ _ Hdist)|]. right. split; reflexivity.
  - intros H; inversion H; subst.
    split; [apply (filter_singleton_elem _ _ _ Hloc)|]. left. reflexivity.
  - discriminate.
Qed.

(** X6: with the directory already cached, the not-found fallback makes no call
    beyond the lookup: the scan reads the cached directory. *)
Theorem resolve_reuses_directory st c m cause w1 d candidates :
  _folders (self st) = Some d ->
  get_distinguished env c (world (remote st))
    = (Raise (ErrorFolderNotFound m cause), w1) ->
  d !! c = Some candidates ->
  _get_default_folder env c st
  = (scan_result env c (locale (self st)) (ErrorFolderNotFound m cause) candidates,
     logged st w1 [EvGetDistinguished c]).
Proof.
  intros Hd H1 H3.
  apply (not_found_scan env st c m cause w1 d _ candidates H1); [|exact H3].
  apply folders_cached. exact Hd.
Qed.

End ResolverMore.

Section ListingOnce.

Context {World : Type} (env : Env World).
Implicit Types (st : St World) (d : Directory) (c : FolderClass).

(** X7: once the directory is cached, resolving a default folder never lists
    child folders again, on any path and whatever the outcome: the calls it
    makes are the distinguished lookup and, after access-denied, the
    construction and the probe of the handle. *)
Theorem no_listing_once_cached st d c r st' :
  _folders (self st) = Some d ->
  _get_default_folder env c st = (r, st') ->
  self st' = self st
  /\ exists evs, calls (remote st') = calls (remote st) ++ evs
                 /\ Forall (fun ev => is_listing ev = false) evs.
Proof.
  intros Hd.
  unfold _get_default_folder, try_except, lift at 1, call at 1.
  destruct (get_distinguished env c (world (remote st))) as [[fld|e] w1]; simpl.
  - intros H; inversion H; subst; simpl. split; [reflexivity|].
    eexists. split; [reflexivity|]. repeat constructor.
  - set (st1 := mkSt (self st) (mkRemote w1 (calls (remote st) ++ [EvGetDistinguished c]))).
    assert (K1 : forall st0, st0 = st1 ->
              self st0 = self st
              /\ exists evs, calls (remote st0) = calls (remote st) ++ evs
                             /\ Forall (fun ev => is_listing ev = false) evs).
    { intros st0 ->. split; [reflexivity|].
      eexists. split; [reflexivity|]. repeat constructor. }
    destruct e; try (intros H; inversion H; subst; apply K1; reflexivity).
    + unfold new_folder. run.
      destruct (folder_init env c w1) as [[h|e] w2]; simpl.
      * destruct (folder_filter env (instance_of c h) "DUMMY" w2) as [[[]|e] w3]; simpl;
          intros H; inversion H; subst; simpl; (split; [reflexivity|]);
          eexists; (split; [rewrite <- !app_assoc; reflexivity|]); repeat constructor.
      * intros H; inversion H; subst; simpl. split; [reflexivity|].
        eexists. split; [rewrite <- !app_assoc; reflexivity|]. repeat constructor.
    + assert (Hf : folders env st1 = (Ok d, st1)) by (apply folders_cached; exact Hd).
      unfold bind at 1. rewrite Hf.
      unfold bind at 1.
      destruct (dict_getitem d c st1) as [[cands|e] st3] eqn:Hg;
        pose proof (dict_getitem_state _ _ _ _ _ Hg) as ->;
        [|intros H; inversion H; subst; apply K1; reflexivity].
      unfold bind at 1, get_self at 1.
      destruct (List.filter (has_localized_name env c (locale (self st1))) cands)
        as [|f1 fs] eqn:Hloc; simpl.
      * unfold bind at 1. unfold bind at 1. rewrite Hf.
        unfold bind at 1. rewrite Hg. unfold ret at 1.
        destruct (List.filter is_distinguished cands) as [|g1 [|g2 gs]]; simpl;
          run; intros H; inversion H; subst; apply K1; reflexivity.
      * destruct fs as [|f2 fs]; run; intros H; inversion H; subst;
          apply K1; reflexivity.
Qed.

End ListingOnce.

(** ** More on the pass-throughs *)

Section PassThroughsMore.

Context {World : Type} (env : Env World).
Implicit Types (st : St World).

Lemma zip_length {A B} (l : list A) (l' : list B) :
  length (zip l l') = min (length l) (length l').
Proof.
  revert l'. induction l as [|x l IH]; intros [|y l']; simpl; try reflexivity.
  rewrite IH. reflexivity.
Qed.

Lemma zip_fst {A B} (l : list A) (l' : list B) :
  map fst (zip l l') = take (length l') l.
Proof.
  revert l'. induction l as [|x l IH]; intros [|y l']; simpl; try reflexivity.
  rewrite IH. reflexivity.
Qed.

Lemma zip_snd {A B} (l : list A) (l' : list B) :
  map snd (zip l l') = take (length l) l'.
Proof.
  revert l'. induction l as [|x l IH]; intros [|y l']; simpl; try reflexivity.
  rewrite IH. reflexivity.
Qed.

(** X11: [upload] with an iterable of folders makes one call, whatever its answer:
    the i-th folder goes with the i-th data element, and the pairs stop with
    the shorter of the two sequences, so data without a folder (and folders
    without data) are left out without an error. *)
Theorem upload_pairs_folders_with_data st data fs res w1 :
  UploadItems_call env (UploadMerged (zip (map Some fs) data)) (world (remote st))
    = (res, w1) ->
  upload env data (FoldersMany fs) st
  = (match res with
     | Ok upload_ids =>
         Ok (map (fun p => {| id := fst p; item_changekey := snd p |}) upload_ids)
     | Raise e => Raise e
     end,
     logged st w1 [EvUploadItems (UploadMerged (zip (map Some fs) data))])
  /\ length (zip (map Some fs) data) = min (length fs) (length data)
  /\ map fst (zip (map Some fs) data) = map Some (take (length data) fs)
  /\ map snd (zip (map Some fs) data) = take (length fs) data.
Proof.
  intros H. split; [|split; [|split]].
  - unfold upload, upload_call, logged. run. rewrite H. destruct res; reflexivity.
  - rewrite zip_length, length_map. reflexivity.
  - rewrite zip_fst. rewrite <- fmap_take. reflexivity.
  - rewrite zip_snd, length_map. reflexivity.
Qed.

(** [upload] with one folder that cannot be iterated makes one call, in which
    every data element is paired with that folder. *)
Theorem upload_single_folder st data f res w1 :
  UploadItems_call env (UploadMerged (map (fun data_str => (Some f, data_str)) data))
                   (world (remote st)) = (res, w1) ->
  upload env data (FoldersOne f) st
  = (match res with
     | Ok upload_ids =>
         Ok (map (fun p => {| id := fst p; item_changekey := snd p |}) upload_ids)
     | Raise e => Raise e
     end,
     logged st w1
       [EvUploadItems (UploadMerged (map (fun data_str => (Some f, data_str)) data))]).
Proof.
  intros H. unfold upload, upload_call, logged. run. rewrite H.
  destruct res; reflexivity.
Qed.

(** X12: [export] makes one call and pairs the ids with the exports by position.
    The pairs stop with the shorter sequence: when the service returns fewer
    exports than ids, the ids beyond them are left out of the result. *)
Theorem export_pairs_by_position st ids exports w1 :
  ExportItems_call env ids (world (remote st)) = (Ok exports, w1) ->
  exists pairs,
    export env ids st = (Ok pairs, logged st w1 [EvExportItems ids])
    /\ length pairs = min (length ids) (length exports)
    /\ map fst pairs = take (length exports) ids
    /\ map snd pairs = take (length ids) exports.
Proof.
  intros H. exists (zip ids exports). split; [|split; [|split]].
  - unfold export, logged. run. rewrite H. reflexivity.
  - apply zip_length.
  - apply zip_fst.
  - apply zip_snd.
Qed.

(** X13: an option argument outside its choice set makes [bulk_update] and
    [bulk_delete] fail their assertion before the items are looked at: no
    call is made, whatever the items. *)
Theorem bulk_validation_precedes_call st items ids
    conflict_resolution message_disposition send_meeting_invitations_or_cancellations
    delete_type send_meeting_cancellations affected_task_occurrences
    suppress_read_receipts :
  (conflict_resolution ∉ CONFLICT_RESOLUTION_CHOICES env
   \/ message_disposition ∉ MESSAGE_DISPOSITION_CHOICES env
   \/ send_meeting_invitations_or_cancellations
        ∉ SEND_MEETING_INVITATIONS_AND_CANCELLATIONS_CHOICES env ->
   bulk_update env items conflict_resolution message_disposition
               send_meeting_invitations_or_cancellations suppress_read_receipts st
   = (Raise (AssertionError "" []), st))
  /\ (delete_type ∉ DELETE_TYPE_CHOICES env
      \/ send_meeting_cancellations ∉ SEND_MEETING_CANCELLATIONS_CHOICES env
      \/ affected_task_occurrences ∉ AFFECTED_TASK_OCCURRENCES_CHOICES env ->
      bulk_delete env ids delete_type send_meeting_cancellations
                  affected_task_occurrences suppress_read_receipts st
      = (Raise (AssertionError "" []), st)).
Proof.
  split; intros H.
  - unfold bulk_update, assert.
    destruct (decide (conflict_resolution ∈ CONFLICT_RESOLUTION_CHOICES env)) as [H1|H1];
      [rewrite (bool_decide_eq_true_2 _ H1)
      |rewrite (bool_decide_eq_false_2 _ H1); reflexivity].
    destruct (decide (message_disposition ∈ MESSAGE_DISPOSITION_CHOICES env)) as [H2|H2];
      [rewrite (bool_decide_eq_true_2 _ H2)
      |rewrite (bool_decide_eq_false_2 _ H2); reflexivity].
    destruct H as [H|[H|H]]; [contradiction|contradiction|].
    rewrite (bool_decide_eq_false_2 _ H). reflexivity.
  - unfold bulk_delete, assert.
    destruct (decide (delete_type ∈ DELETE_TYPE_CHOICES env)) as [H1|H1];
      [rewrite (bool_decide_eq_true_2 _ H1)
      |rewrite (bool_decide_eq_false_2 _ H1); reflexivity].
    destruct (decide (send_meeting_cancellations
                      ∈ SEND_MEETING_CANCELLATIONS_CHOICES env)) as [H2|H2];
      [rewrite (bool_decide_eq_true_2 _ H2)
      |rewrite (bool_decide_eq_false_2 _ H2); reflexivity].
    destruct H as [H|[H|H]]; [contradiction|contradiction|].
    rewrite (bool_decide_eq_false_2 _ H). reflexivity.
Qed.

End PassThroughsMore.

(** ** More on construction *)

Section ConstructionMore.

Context {World : Type} (env : Env World).

(** X15: without the discovery flag [discover] is never called and the credentials
    play no part beyond the access type: with no configuration the
    constructor fails before any call; with one, the lookup of the root
    folder is the only call, and the account has the address as given, the
    protocol of the configuration and nothing cached. *)
Theorem init_without_discovery address full access credentials verify_ssl loc r :
  contains_char "@"%char address = true ->
  resolve_access_type env access credentials ∈ [DELEGATE env; IMPERSONATION env] ->
  __init__ env address full access false credentials None verify_ssl loc r
    = (Raise (AttributeError "non-autodiscover requires a config"), r)
  /\ forall cfg res w1,
       get_distinguished env Root (world r) = (res, w1) ->
       __init__ env address full access false credentials (Some cfg) verify_ssl loc r
       = (match res with
          | Ok root_folder =>
              Ok {| primary_smtp_address := address; fullname := full; locale := loc;
                    access_type := resolve_access_type env access credentials;
                    protocol := Configuration_protocol cfg;
                    version := Protocol_version (Configuration_protocol cfg);
                    root := root_folder; _folders := None; _defaults := ∅ |}
          | Raise e => Raise e
          end,
          mkRemote w1 (calls r ++ [EvGetDistinguished Root])).
Proof.
  intros Hat Hacc. split.
  - unfold __init__. rewrite Hat. simpl negb. cbv iota.
    unfold assert. rewrite (bool_decide_eq_true_2 _ Hacc). reflexivity.
  - intros cfg res w1 Hroot. unfold __init__. rewrite Hat. simpl negb. cbv iota.
    unfold assert. rewrite (bool_decide_eq_true_2 _ Hacc). run. rewrite Hroot.
    destruct res; reflexivity.
Qed.

(** X16: with the discovery flag, credentials and no configuration, the account
    gets the address and the protocol that [discover] returns, not the
    address given; the calls are [discover] and the lookup of the root. *)
Theorem init_with_discovery address full access cr verify_ssl loc r
    discovered protocol_found w1 root_folder w2 :
  contains_char "@"%char address = true ->
  resolve_access_type env access (Some cr) ∈ [DELEGATE env; IMPERSONATION env] ->
  discover env address cr verify_ssl (world r) = (Ok (discovered, protocol_found), w1) ->
  get_distinguished env Root w1 = (Ok root_folder, w2) ->
  __init__ env address full access true (Some cr) None verify_ssl loc r
  = (Ok {| primary_smtp_address := discovered; fullname := full; locale := loc;
           access_type := resolve_access_type env access (Some cr);
           protocol := protocol_found; version := Protocol_version protocol_found;
           root := root_folder; _folders := None; _defaults := ∅ |},
     mkRemote w2 (calls r ++ [EvDiscover address cr verify_ssl; EvGetDistinguished Root])).
Proof.
  intros Hat Hacc Hd Hroot. unfold __init__. rewrite Hat. simpl negb. cbv iota.
  unfold assert. rewrite (bool_decide_eq_true_2 _ Hacc). run.
  rewrite Hd. simpl. rewrite Hroot. simpl. rewrite <- !app_assoc. reflexivity.
Qed.

(** X17: what holds of every account that the constructor returns: the address
    given had an at sign; the access type is the one resolved from the
    arguments and is DELEGATE or IMPERSONATION; the version is that of the
    protocol; nothing is cached; and the protocol has exactly one source:
    with the discovery flag there were credentials and no configuration,
    without it there was a configuration, whose protocol the account has
    together with the address as given. *)
Theorem init_invariants address full access autodiscover credentials config
    verify_ssl loc r a r' :
  __init__ env address full access autodiscover credentials config verify_ssl loc r
    = (Ok a, r') ->
  contains_char "@"%char address = true
  /\ access_type a = resolve_access_type env access credentials
  /\ access_type a ∈ [DELEGATE env; IMPERSONATION env]
  /\ version a = Protocol_version (protocol a)
  /\ fullname a = full /\ locale a = loc
  /\ _folders a = None /\ _defaults a = ∅
  /\ (if autodiscover then is_Some credentials /\ config = None
      else exists cfg, config = Some cfg
                       /\ protocol a = Configuration_protocol cfg
                       /\ primary_smtp_address a = address).
Proof.
  unfold __init__.
  destruct (contains_char "@"%char address) eqn:Hat; simpl negb; cbv iota;
    [|unfold raise; discriminate].
  unfold assert.
  destruct (decide (resolve_access_type env access credentials
                    ∈ [DELEGATE env; IMPERSONATION env])) as [Hacc|Hacc];
    [rewrite (bool_decide_eq_true_2 _ Hacc)
    |rewrite (bool_decide_eq_false_2 _ Hacc); run; discriminate].
  run. destruct autodiscover.
  - destruct credentials as [cr|]; [|discriminate]. simpl.
    destruct (discover env address cr verify_ssl (world r)) as [[ap|e] w1]; simpl;
      [|discriminate].
    destruct config as [cfg|]; [discriminate|]. simpl.
    destruct (get_distinguished env Root w1) as [[rt|e] w2]; simpl; [|discriminate].
    intros H; inversion H; subst; simpl. repeat split; eauto.
  - destruct config as [cfg|]; [|discriminate]. simpl.
    destruct (get_distinguished env Root (world r)) as [[rt|e] w2]; simpl; [|discriminate].
    intros H; inversion H; subst; simpl. repeat split; eauto.
Qed.

End ConstructionMore.

(** ** Subscriptions *)

Section SubscriptionFacts.

Import Subscription.

Context {World Token : Type} (services : Services World Token).
Implicit Types (st : State World Token) (o : Object Token).

Lemma get_events_run st answer w1 :
  GetEvents_call services (event_getter (this st)) (subscription (this st))
                 (server (wire st)) = (Ok answer, w1) ->
  get_events services st
  = (Ok (fst answer),
     mkState (set_subscription (snd answer) (this st))
             (mkWire w1 (requests (wire st)
                         ++ [ReqGetEvents (event_getter (this st))
                                          (subscription (this st))]))).
Proof.
  intros H. unfold get_events, get_this, update_this, on_wire, request. run.
  rewrite H. reflexivity.
Qed.

(** X18: successive calls of [get_events] hand the token on: each call sends the
    token that the call before it received, the first one the token of the
    object, and the object ends with the token of the last answer.  Stated
    for a server that answers a poll on token [t] with the events
    [events_of t] and the token [next t]. *)
Theorem poll_hands_tokens_on (events_of : Token -> list string) (next : Token -> Token)
    (step : World -> World) n : forall st,
  (forall service t w,
     GetEvents_call services service t w = (Ok (events_of t, next t), step w)) ->
  poll services n st
  = (Ok (map events_of (iterates next (subscription (this st)) n)),
     mkState (set_subscription (advance next (subscription (this st)) n) (this st))
             (mkWire (advance step (server (wire st)) n)
                     (requests (wire st)
                      ++ map (ReqGetEvents (event_getter (this st)))
                             (iterates next (subscription (this st)) n)))).
Proof.
  induction n as [|n IH]; intros st Hserver.
  - simpl. unfold ret. rewrite app_nil_r.
    destruct st as [[s t u g] [w rq]]. reflexivity.
  - cbn [poll]. unfold bind at 1.
    rewrite (get_events_run st _ _ (Hserver _ _ _)).
    unfold bind at 1. rewrite (IH _ Hserver). simpl.
    rewrite <- app_assoc. reflexivity.
Qed.

(** X19: a call of [get_events] that fails leaves the object as it was: the token
    is not replaced, and the next call sends it again. *)
Theorem get_events_failure_keeps_token st e w1 :
  GetEvents_call services (event_getter (this st)) (subscription (this st))
                 (server (wire st)) = (Raise e, w1) ->
  get_events services st
  = (Raise e,
     mkState (this st)
             (mkWire w1 (requests (wire st)
                         ++ [ReqGetEvents (event_getter (this st))
                                          (subscription (this st))])))
  /\ forall r st',
       get_events services
         (mkState (this st)
                  (mkWire w1 (requests (wire st)
                              ++ [ReqGetEvents (event_getter (this st))
                                               (subscription (this st))])))
       = (r, st') ->
       requests (wire st')
       = requests (wire st)
         ++ [ReqGetEvents (event_getter (this st)) (subscription (this st));
             ReqGetEvents (event_getter (this st)) (subscription (this st))].
Proof.
  intros H. split.
  - unfold get_events, get_this, update_this, on_wire, request. run.
    rewrite H. reflexivity.
  - intros r st'. unfold get_events, get_this, update_this, on_wire, request. run.
    destruct (GetEvents_call services (event_getter (this st)) (subscription (this st)) w1)
      as [[answer|e'] w2]; simpl; intros H'; inversion H'; subst; simpl;
      rewrite <- app_assoc; reflexivity.
Qed.

(** X20: [unsubscribe] sends the current token and, whatever the answer, leaves
    the object as it was; the object keeps no record of the call, so a later
    [get_events] still polls with the same token. *)
Theorem unsubscribe_leaves_object st r st' :
  unsubscribe services st = (r, st') ->
  this st' = this st
  /\ requests (wire st')
     = requests (wire st) ++ [ReqUnsubscribe (unsub (this st)) (subscription (this st))]
  /\ forall r2 st2,
       get_events services st' = (r2, st2) ->
       requests (wire st2)
       = requests (wire st)
         ++ [ReqUnsubscribe (unsub (this st)) (subscription (this st));
             ReqGetEvents (event_getter (this st)) (subscription (this st))].
Proof.
  unfold unsubscribe, get_this, on_wire, request. run.
  destruct (Unsubscribe_call services (unsub (this st)) (subscription (this st))
                             (server (wire st))) as [[res|e] w1]; simpl;
    intros H; inversion H; subst; simpl; (split; [reflexivity|split; [reflexivity|]]);
    intros r2 st2; unfold get_events, get_this, update_this, on_wire, request; run;
    destruct (GetEvents_call services (event_getter (this st)) (subscription (this st)) w1)
      as [[answer|e'] w2]; simpl; intros H'; inversion H'; subst; simpl;
    rewrite <- app_assoc; reflexivity.
Qed.

(** X21: a whole life of a subscription on a server that answers: the constructor
    makes one request, a pull subscription for the given events and folder
    (with timeout 20 when none is given) on the protocol of the folder's
    account; the [n] polls send the tokens in turn; [unsubscribe] sends the
    token of the last answer.  All three services are bound to that one
    protocol. *)
Theorem subscription_life (events_of : Token -> list string) (next : Token -> Token)
    (step : World -> World) folder account events timeout r t0 w1 n res w2 :
  let sub := mkService (protocol account) (Some (PULL_SUBSCRIPTION services)) in
  let plain := mkService (protocol account) None in
  Subscribe_call services sub events folder (default 20 timeout) (server r) = (Ok t0, w1) ->
  (forall service t w,
     GetEvents_call services service t w = (Ok (events_of t, next t), step w)) ->
  Unsubscribe_call services plain (advance next t0 n) (advance step w1 n) = (res, w2) ->
  exists o st_polled st_end,
    __init__ services folder account events timeout r
      = (Ok o, mkWire w1 (requests r
                          ++ [ReqSubscribe sub events folder (default 20 timeout)]))
    /\ o = mkObject sub t0 plain plain
    /\ poll services n
         (mkState o (mkWire w1 (requests r
                                ++ [ReqSubscribe sub events folder (default 20 timeout)])))
       = (Ok (map events_of (iterates next t0 n)), st_polled)
    /\ unsubscribe services st_polled = (res, st_end)
    /\ requests (wire st_end)
       = requests r
         ++ [ReqSubscribe sub events folder (default 20 timeout)]
         ++ map (ReqGetEvents plain) (iterates next t0 n)
         ++ [ReqUnsubscribe plain (advance next t0 n)].
Proof.
  intros sub plain Hsub Hget Hunsub.
  set (wire1 := mkWire w1 (requests r
                           ++ [ReqSubscribe sub events folder (default 20 timeout)])).
  set (o := mkObject sub t0 plain plain).
  pose proof (poll_hands_tokens_on events_of next step n (mkState o wire1) Hget) as Hpoll.
  simpl in Hpoll.
  exists o. eexists.
  exists (mkState (set_subscription (advance next t0 n) o)
                  (mkWire w2 ((requests wire1 ++ map (ReqGetEvents plain) (iterates next t0 n))
                              ++ [ReqUnsubscribe plain (advance next t0 n)]))).
  split; [|split; [reflexivity|split; [exact Hpoll|split]]].
  - unfold __init__, request. run. fold sub. rewrite Hsub. reflexivity.
  - unfold unsubscribe, get_this, on_wire, request. run. fold plain.
    rewrite Hunsub. destruct res; reflexivity.
  - simpl. rewrite <- !app_assoc. reflexivity.
Qed.

End SubscriptionFacts.

(** ** The further theorems on concrete mailboxes *)


(** The failing access above has filled the directory cache on its way. *)
Example failed_inbox_leaves_directory :
  fst (inbox Demo.env_none Demo.start)
  = Raise (ErrorFolderNotFound "No useable default Inbox folders"
             (Some (ErrorFolderNotFound
                      "The specified folder could not be found in the store." None)))
  /\ is_Some (_folders (self (snd (inbox Demo.env_none Demo.start)))).
Proof. split; vm_compute; eauto. Qed.

Lemma property_resolves_by_distinguished_id_witness :
  drafts Demo.env_one Demo.start
  = (Ok Demo.drafts_folder,
     mkSt (set_default "_drafts" Demo.drafts_folder Demo.anne)
          (mkRemote 1 [EvGetDistinguished Drafts])).
Proof.
  apply (property_resolves_by_distinguished_id Demo.env_one "_drafts" Drafts Demo.start
           Demo.drafts_folder 1); reflexivity.
Defined.

Lemma resolve_other_error_propagates_witness :
  _get_default_folder Cases.env_flagged Tasks Demo.start
  = (Raise Cases.timeout_error, logged Demo.start 1 [EvGetDistinguished Tasks])
  /\ tasks Cases.env_flagged Demo.start
     = (Raise Cases.timeout_error, logged Demo.start 1 [EvGetDistinguished Tasks]).
Proof.
  destruct (resolve_other_error_propagates Cases.env_flagged Tasks Demo.start
              Cases.timeout_error 1 eq_refl eq_refl) as [H1 H2].
  split; [exact H1|]. apply (H2 "_tasks"). reflexivity.
Defined.

Lemma discovery_failure_propagates_witness :
  folders Cases.env_tois_fails Demo.start
  = (Raise Cases.timeout_error,
     logged Demo.start 2 [EvGetFolders Demo.root_folder SHALLOW;
                          EvGetFolders Demo.tois SHALLOW]).
Proof.
  apply (proj1 (proj2 (discovery_failure_propagates Cases.env_tois_fails Demo.start eq_refl))
           [Demo.shared] Demo.tois [Demo.notes] 1 Cases.timeout_error 2).
  - reflexivity.
  - repeat constructor. vm_compute. discriminate.
  - reflexivity.
  - reflexivity.
Defined.

Lemma directory_partitions_working_set_witness :
  count_under (Demo.directory_of (folders Demo.env_one Demo.start)) WELLKNOWN_FOLDERS_values
  = 3.
Proof.
  apply (proj2 (directory_partitions_working_set Demo.env_one Demo.start
                  [Demo.indbakke; Demo.notes; Demo.kalender]
                  (snd (working_set Demo.env_one Demo.start))
                  (Demo.directory_of (folders Demo.env_one Demo.start))
                  (snd (folders Demo.env_one Demo.start))
                  eq_refl
                  ltac:(vm_compute; reflexivity)
                  ltac:(vm_compute; reflexivity))).
Defined.

Lemma resolve_unique_distinguished_witness :
  fst (_get_default_folder Cases.env_flagged Inbox Demo.start) = Ok Cases.flagged.
Proof.
  assert (H1 : get_distinguished Cases.env_flagged Inbox (world (remote Demo.start))
               = (Raise (ErrorFolderNotFound
                           "The specified folder could not be found in the store." None), 1))
    by reflexivity.
  assert (H2 : folders Cases.env_flagged (logged Demo.start 1 [EvGetDistinguished Inbox])
               = (Ok (Demo.directory_of (Demo.scanned Cases.env_flagged)),
                  snd (Demo.scanned Cases.env_flagged)))
    by (vm_compute; reflexivity).
  assert (H3 : Demo.directory_of (Demo.scanned Cases.env_flagged) !! Inbox
               = Some [Cases.plain; Cases.flagged])
    by (vm_compute; reflexivity).
  assert (H4 : List.filter (has_localized_name Cases.env_flagged Inbox
                              (locale (self Demo.start)))
                 [Cases.plain; Cases.flagged] = [])
    by (vm_compute; reflexivity).
  assert (H5 : List.filter is_distinguished [Cases.plain; Cases.flagged] = [Cases.flagged])
    by reflexivity.
  rewrite (resolve_unique_distinguished Cases.env_flagged Demo.start Inbox _ _ _ _ _ _ _
             H1 H2 H3 H4 H5).
  reflexivity.
Defined.

Lemma resolve_result_is_candidate_witness :
  Demo.indbakke ∈ [Demo.indbakke]
  /\ (List.filter (has_localized_name Demo.env_one Inbox (locale (self Demo.start)))
        [Demo.indbakke] = [Demo.indbakke]
      \/ (List.filter (has_localized_name Demo.env_one Inbox (locale (self Demo.start)))
            [Demo.indbakke] = []
          /\ List.filter is_distinguished [Demo.indbakke] = [Demo.indbakke])).
Proof.
  assert (H1 : get_distinguished Demo.env_one Inbox (world (remote Demo.start))
               = (Raise (ErrorFolderNotFound
                           "The specified folder could not be found in the store." None), 1))
    by reflexivity.
  assert (H2 : folders Demo.env_one (logged Demo.start 1 [EvGetDistinguished Inbox])
               = (Ok (Demo.directory_of (Demo.scanned Demo.env_one)),
                  snd (Demo.scanned Demo.env_one)))
    by (vm_compute; reflexivity).
  assert (H3 : Demo.directory_of (Demo.scanned Demo.env_one) !! Inbox
               = Some [Demo.indbakke])
    by (vm_compute; reflexivity).
  assert (H4 : _get_default_folder Demo.env_one Inbox Demo.start
               = (Ok Demo.indbakke, snd (_get_default_folder Demo.env_one Inbox Demo.start)))
    by (vm_compute; reflexivity).
  exact (resolve_result_is_candidate Demo.env_one Demo.start Inbox _ _ _ _ _ _ _ _
           H1 H2 H3 H4).
Defined.

Lemma resolve_reuses_directory_witness :
  _get_default_folder Demo.env_one Inbox (snd (folders Demo.env_one Demo.start))
  = (Ok Demo.indbakke,
     logged (snd (folders Demo.env_one Demo.start)) 3 [EvGetDistinguished Inbox]).
Proof.
  assert (H0 : _folders (self (snd (folders Demo.env_one Demo.start)))
               = Some (Demo.directory_of (folders Demo.env_one Demo.start)))
    by (vm_compute; reflexivity).
  assert (H1 : get_distinguished Demo.env_one Inbox
                 (world (remote (snd (folders Demo.env_one Demo.start))))
               = (Raise (ErrorFolderNotFound
                           "The specified folder could not be found in the store." None), 3))
    by (vm_compute; reflexivity).
  assert (H3 : Demo.directory_of (folders Demo.env_one Demo.start) !! Inbox
               = Some [Demo.indbakke])
    by (vm_compute; reflexivity).
  rewrite (resolve_reuses_directory Demo.env_one _ Inbox _ _ _ _ _ H0 H1 H3).
  f_equal; vm_compute; reflexivity.
Defined.

Lemma upload_pairs_folders_with_data_witness :
  upload Demo.env_one ["a"; "b"; "c"] (FoldersMany [Demo.notes; Demo.kalender]) Demo.start
  = (Ok [mkItemId "item-a" "ck"; mkItemId "item-b" "ck"],
     logged Demo.start 1
       [EvUploadItems (UploadMerged [(Some Demo.notes, "a"); (Some Demo.kalender, "b")])]).
Proof.
  apply (proj1 (upload_pairs_folders_with_data Demo.env_one Demo.start ["a"; "b"; "c"]
                  [Demo.notes; Demo.kalender]
                  (Ok [("item-a", "ck"); ("item-b", "ck")]) 1 eq_refl)).
Defined.

Lemma upload_single_folder_witness :
  upload Demo.env_one ["a"; "b"] (FoldersOne Demo.notes) Demo.start
  = (Ok [mkItemId "item-a" "ck"; mkItemId "item-b" "ck"],
     logged Demo.start 1
       [EvUploadItems (UploadMerged [(Some Demo.notes, "a"); (Some Demo.notes, "b")])]).
Proof.
  apply (upload_single_folder Demo.env_one Demo.start ["a"; "b"] Demo.notes
           (Ok [("item-a", "ck"); ("item-b", "ck")]) 1 eq_refl).
Defined.

Lemma export_pairs_by_position_witness :
  exists pairs,
    export Demo.env_one [mkItemId "AAM=" "ck"; mkItemId "AAN=" "ck"] Demo.start
    = (Ok pairs, logged Demo.start 1
                   [EvExportItems [mkItemId "AAM=" "ck"; mkItemId "AAN=" "ck"]])
    /\ length pairs = 2
    /\ map fst pairs = [mkItemId "AAM=" "ck"; mkItemId "AAN=" "ck"]
    /\ map snd pairs = ["AAM="; "AAN="].
Proof.
  apply (export_pairs_by_position Demo.env_one Demo.start
           [mkItemId "AAM=" "ck"; mkItemId "AAN=" "ck"] ["AAM="; "AAN="] 1 eq_refl).
Defined.

Lemma bulk_validation_precedes_call_witness :
  bulk_update Demo.env_one [(mkItemId "AAM=" "ck", ["subject"])]
              "Overwrite" "SaveOnly" "SendToNone" true Demo.start
  = (Raise (AssertionError "" []), Demo.start)
  /\ bulk_delete Demo.env_one [mkItemId "AAM=" "ck"]
                 "HardDelete" "SendToNone" "ThisOne" true Demo.start
     = (Raise (AssertionError "" []), Demo.start).
Proof.
  split.
  - apply (proj1 (bulk_validation_precedes_call Demo.env_one Demo.start
                    [(mkItemId "AAM=" "ck", ["subject"])] []
                    "Overwrite" "SaveOnly" "SendToNone" "" "" "" true)).
    left. vm_compute. intros H. apply list_elem_of_In in H. simpl in H.
    repeat (destruct H as [H|H]; [discriminate H|]). exact H.
  - apply (proj2 (bulk_validation_precedes_call Demo.env_one Demo.start
                    [] [mkItemId "AAM=" "ck"]
                    "" "" "" "HardDelete" "SendToNone" "ThisOne" true)).
    right. right. vm_compute. intros H. apply list_elem_of_In in H. simpl in H.
    repeat (destruct H as [H|H]; [discriminate H|]). exact H.
Defined.

Lemma init_without_discovery_witness :
  __init__ Demo.env_one "anne@example.com" (Some "Anne") None false
           (Some Demo.the_credentials) None true "da_DK" (mkRemote 0 [])
  = (Raise (AttributeError "non-autodiscover requires a config"), mkRemote 0 [])
  /\ __init__ Demo.env_one "anne@example.com" (Some "Anne") None false
              (Some Demo.the_credentials) (Some Demo.the_config) true "da_DK"
              (mkRemote 0 [])
     = (Ok {| primary_smtp_address := "anne@example.com"; fullname := Some "Anne";
              locale := "da_DK"; access_type := "delegate";
              protocol := Demo.the_protocol; version := "Exchange2013";
              root := Demo.root_folder; _folders := None; _defaults := ∅ |},
        mkRemote 1 [EvGetDistinguished Root]).
Proof.
  assert (Hacc : resolve_access_type Demo.env_one None (Some Demo.the_credentials)
                 ∈ [DELEGATE Demo.env_one; IMPERSONATION Demo.env_one])
    by (vm_compute; left).
  destruct (init_without_discovery Demo.env_one "anne@example.com" (Some "Anne") None
              (Some Demo.the_credentials) true "da_DK" (mkRemote 0 []) eq_refl Hacc)
    as [H1 H2].
  split; [exact H1|].
  exact (H2 Demo.the_config (Ok Demo.root_folder) 1 eq_refl).
Defined.

Lemma init_with_discovery_witness :
  __init__ Cases.env_flagged "anne@example.com" None None true
           (Some Demo.the_credentials) None true "da_DK" (mkRemote 0 [])
  = (Ok {| primary_smtp_address := "anne.jensen@example.com"; fullname := None;
           locale := "da_DK"; access_type := "delegate";
           protocol := Demo.the_protocol; version := "Exchange2013";
           root := Demo.root_folder; _folders := None; _defaults := ∅ |},
     mkRemote 2 [EvDiscover "anne@example.com" Demo.the_credentials true;
                 EvGetDistinguished Root]).
Proof.
  assert (Hacc : resolve_access_type Cases.env_flagged None (Some Demo.the_credentials)
                 ∈ [DELEGATE Cases.env_flagged; IMPERSONATION Cases.env_flagged])
    by (vm_compute; left).
  exact (init_with_discovery Cases.env_flagged "anne@example.com" None None
           Demo.the_credentials true "da_DK" (mkRemote 0 [])
           "anne.jensen@example.com" Demo.the_protocol 1 Demo.root_folder 2
           eq_refl Hacc eq_refl eq_refl).
Defined.

Lemma init_invariants_witness :
  access_type Cases.discovered_account
  ∈ [DELEGATE Cases.env_flagged; IMPERSONATION Cases.env_flagged].
Proof.
  apply (init_invariants Cases.env_flagged "anne@example.com" None None true
           (Some Demo.the_credentials) None true "da_DK" (mkRemote 0 [])
           Cases.discovered_account
           (mkRemote 2 [EvDiscover "anne@example.com" Demo.the_credentials true;
                        EvGetDistinguished Root])).
  vm_compute. reflexivity.
Defined.

Lemma poll_hands_tokens_on_witness :
  Subscription.poll Cases.services_up 3 Cases.subscribed
  = (Ok [[Subscription.NEW_MAIL_EVENT]; [Subscription.NEW_MAIL_EVENT];
         [Subscription.NEW_MAIL_EVENT]],
     Subscription.mkState
       (Subscription.set_subscription 103 (Subscription.this Cases.subscribed))
       (Subscription.mkWire 4
          (map (Subscription.ReqGetEvents
                  (Subscription.mkService Demo.the_protocol None)) [100; 101; 102]))).
Proof.
  apply (poll_hands_tokens_on Cases.services_up
           (fun _ => [Subscription.NEW_MAIL_EVENT]) S S 3 Cases.subscribed).
  intros service t w. reflexivity.
Defined.

Lemma get_events_failure_keeps_token_witness :
  Subscription.get_events Cases.services Cases.stalled
  = (Raise Cases.timeout_error,
     Subscription.mkState (Subscription.this Cases.stalled)
       (Subscription.mkWire 4
          [Subscription.ReqGetEvents (Subscription.mkService Demo.the_protocol None) 102])).
Proof.
  apply (proj1 (get_events_failure_keeps_token Cases.services Cases.stalled
                  Cases.timeout_error 4 eq_refl)).
Defined.

Lemma unsubscribe_leaves_object_witness :
  Subscription.this (snd (Subscription.unsubscribe Cases.services Cases.subscribed))
  = Subscription.this Cases.subscribed.
Proof.
  apply (proj1 (unsubscribe_leaves_object Cases.services Cases.subscribed
                  (Ok "OK") (snd (Subscription.unsubscribe Cases.services Cases.subscribed))
                  eq_refl)).
Defined.

Lemma subscription_life_witness :
  exists o st_polled st_end,
    Subscription.__init__ Cases.services_up Demo.indbakke Demo.anne
      [Subscription.NEW_MAIL_EVENT] None (Subscription.mkWire 0 [])
    = (Ok o, Subscription.mkWire 1
               [Subscription.ReqSubscribe
                  (Subscription.mkService Demo.the_protocol (Some "PullSubscriptionRequest"))
                  [Subscription.NEW_MAIL_EVENT] Demo.indbakke 20])
    /\ o = Subscription.mkObject
             (Subscription.mkService Demo.the_protocol (Some "PullSubscriptionRequest"))
             100
             (Subscription.mkService Demo.the_protocol None)
             (Subscription.mkService Demo.the_protocol None)
    /\ Subscription.poll Cases.services_up 2
         (Subscription.mkState o
            (Subscription.mkWire 1
               [Subscription.ReqSubscribe
                  (Subscription.mkService Demo.the_protocol
                     (Some "PullSubscriptionRequest"))
                  [Subscription.NEW_MAIL_EVENT] Demo.indbakke 20]))
       = (Ok [[Subscription.NEW_MAIL_EVENT]; [Subscription.NEW_MAIL_EVENT]], st_polled)
    /\ Subscription.unsubscribe Cases.services_up st_polled = (Ok "OK", st_end)
    /\ Subscription.requests (Subscription.wire st_end)
       = [Subscription.ReqSubscribe
            (Subscription.mkService Demo.the_protocol (Some "PullSubscriptionRequest"))
            [Subscription.NEW_MAIL_EVENT] Demo.indbakke 20;
          Subscription.ReqGetEvents (Subscription.mkService Demo.the_protocol None) 100;
          Subscription.ReqGetEvents (Subscription.mkService Demo.the_protocol None) 101;
          Subscription.ReqUnsubscribe (Subscription.mkService Demo.the_protocol None) 102].
Proof.
  apply (subscription_life Cases.services_up (fun _ => [Subscription.NEW_MAIL_EVENT]) S S
           Demo.indbakke Demo.anne [Subscription.NEW_MAIL_EVENT] None
           (Subscription.mkWire 0 []) 100 1 2 (Ok "OK") 4).
  - reflexivity.
  - intros service t w. reflexivity.
  - reflexivity.
Defined.

Lemma no_listing_once_cached_witness :
  self (snd (_get_default_folder Demo.env_one Inbox (snd (folders Demo.env_one Demo.start))))
  = self (snd (folders Demo.env_one Demo.start)).
Proof.
  apply (proj1 (no_listing_once_cached Demo.env_one
                  (snd (folders Demo.env_one Demo.start))
                  (Demo.directory_of (folders Demo.env_one Demo.start)) Inbox
                  (fst (_get_default_folder Demo.env_one Inbox
                          (snd (folders Demo.env_one Demo.start))))
                  (snd (_get_default_folder Demo.env_one Inbox
                          (snd (folders Demo.env_one Demo.start))))
                  ltac:(vm_compute; reflexivity)
                  ltac:(vm_compute; reflexivity))).
Defined.
